(** * HashBaker: the embedded PDF hash extractor

    A shallow embedding of [SecurityRevision] and [PdfHashExtractor] of
    [hashbaker.py], together with the thin [extract_pdf] wrapper that
    writes the fingerprint next to the source file.

    The objects that pyhanko hands to the extractor (the reader with its
    encryption dictionary, document identifier and security handler) are
    the inputs of the model.  Python values are modelled as follows:
    - [bytes] as [list byte];
    - [str] as [string];
    - the entries of the encryption dictionary as [PdfObject]: an integer
      ([NumberObject], an [int] subclass), a name ([NameObject], a [str]
      subclass) or a real number ([FloatObject], a [decimal.Decimal]
      subclass);
    - a [dict] with string keys as [gmap string _];
    - exceptions as values of type [Exception] carried by [result].

    A [PdfFileReader] record is a reader that pyhanko has built, security
    handler included: it holds the values that [pdf.encrypt_dict],
    [pdf.document_id], [pdf.security_handler] and the attributes of the
    handler return.  A document for which pyhanko raises instead (it
    builds the handler from the same encryption dictionary) is the
    [Raise] case of the reader that [extract_pdf] is given.
    [extract_pdf] catches every exception, so the kind of a failure is
    visible on [init] and [extract] only. *)

From Stdlib Require Import ZArith List Ascii String Strings.Byte.
From Stdlib Require Import DecimalString DecimalZ.
From stdpp Require Import gmap strings list.

Local Open Scope Z_scope.

(** ** Python values *)

Definition bytes := list byte.

(** A real number is kept as [decimal.Decimal] keeps the numeral of the
    file: the sign, the digits without the point as a number, and the
    count of digits after the point (the exponent is its opposite);
    [4.0] is [FloatObject false 40 1]. *)
Inductive PdfObject : Type :=
| NumberObject (n : Z)
| NameObject (s : string)
| FloatObject (negative : bool) (coefficient : N) (places : nat).

(** [str(n)] for a Python integer: optional sign, then decimal digits
    without leading zeros. *)
Definition str_int (n : Z) : string :=
  NilZero.string_of_int (Z.to_int n).

(** The digits of the coefficient of a [Decimal]. *)
Definition digits (coefficient : N) : string :=
  NilZero.string_of_uint (N.to_uint coefficient).

Fixpoint zeros (n : nat) : string :=
  match n with
  | O => EmptyString
  | S n => String "0" (zeros n)
  end.

(** [str(x)] for a [Decimal] whose exponent is not positive
    ([Decimal.__str__]): the digits with the point put in place, zeros
    added in front as needed, when more than -6 digits lie left of the
    point; scientific notation with one digit before the point
    otherwise, the exponent being negative there. *)
Definition str_decimal (negative : bool) (coefficient : N) (places : nat)
    : string :=
  let ds := digits coefficient in
  let len := String.length ds in
  let leftdigits := Z.of_nat len - Z.of_nat places in
  let sign := if negative then "-" else "" in
  if -6 <? leftdigits then
    if leftdigits <=? 0 then
      sign +:+ "0." +:+ zeros (places - len) +:+ ds
    else if (places =? 0)%nat then sign +:+ ds
    else sign +:+ substring 0 (len - places) ds
              +:+ "." +:+ substring (len - places) places ds
  else
    sign +:+ substring 0 1 ds
         +:+ (if (1 <? len)%nat then "." +:+ substring 1 (len - 1) ds else "")
         +:+ "E" +:+ str_int (leftdigits - 1).

(** Reading a decimal numeral back: the partial inverse of [str_int],
    used to state what a printed length or permission value denotes. *)
Definition int_of_str (s : string) : option Z :=
  Z.of_int <$> NilZero.int_of_string s.

(** [str(len(x))]. *)
Definition str_len (n : nat) : string := str_int (Z.of_nat n).

(** [str(o)] for an attribute that is [None] or a dictionary entry. *)
Definition str (o : option PdfObject) : string :=
  match o with
  | None => "None"
  | Some (NumberObject n) => str_int n
  | Some (NameObject s) => s
  | Some (FloatObject negative coefficient places) =>
      str_decimal negative coefficient places
  end.

(** [str(int(b))] for a Python [bool]. *)
Definition str_bool (b : bool) : string := if b then "1" else "0".

(** [bytes.hex()]: two digits of ["0123456789abcdef"] per byte, high nibble
    first. *)
Definition hexdigits : string := "0123456789abcdef".

Definition hexdigit (n : N) : ascii :=
  match String.get (N.to_nat n) hexdigits with
  | Some c => c
  | None => "0"%char
  end.

Fixpoint hex (data : bytes) : string :=
  match data with
  | [] => EmptyString
  | b :: rest =>
      String (hexdigit (Byte.to_N b / 16))
        (String (hexdigit (Byte.to_N b mod 16)) (hex rest))
  end.

(** [sep.join(items)]. *)
Definition join (sep : string) (items : list string) : string :=
  String.concat sep items.

(** [s.split(sep)] for a one-character separator; used to read the fields
    of a fingerprint back. *)
Fixpoint split_on (sep : ascii) (s : string) : list string :=
  match s with
  | EmptyString => [EmptyString]
  | String c rest =>
      if Ascii.eqb c sep then EmptyString :: split_on sep rest
      else match split_on sep rest with
           | [] => [String c EmptyString]
           | w :: ws => String c w :: ws
           end
  end.

(** The [int] key that a value is found under in a [dict]: a real number
    equals, and hashes like, the integer of the same value; a name
    equals no integer. *)
Definition int_key (revision : PdfObject) : option Z :=
  match revision with
  | NumberObject r => Some r
  | NameObject _ => None
  | FloatObject negative coefficient places =>
      let scale := (10 ^ N.of_nat places)%N in
      if (coefficient mod scale =? 0)%N then
        let magnitude := Z.of_N (coefficient / scale) in
        Some (if negative then - magnitude else magnitude)
      else None
  end.

(** ** Exceptions *)

Inductive Exception : Type :=
| RuntimeError (msg : string)
| KeyError (key : string)
| PdfReadError (msg : string).

Inductive result (A : Type) : Type :=
| Ok (a : A)
| Raise (e : Exception).
Arguments Ok {A} a.
Arguments Raise {A} e.

(** Sequencing of statements that may raise. *)
Global Instance result_bind : MBind result := fun A B k m =>
  match m with
  | Ok a => k a
  | Raise e => Raise e
  end.

(** [d[key]]. *)
Definition getitem (d : gmap string PdfObject) (key : string) : result PdfObject :=
  match d !! key with
  | Some v => Ok v
  | None => Raise (KeyError key)
  end.

(** ** SecurityRevision *)

Module SecurityRevision.

Definition revisions : gmap Z nat :=
  {[ 2 := 32%nat; 3 := 32%nat; 4 := 32%nat; 5 := 48%nat; 6 := 48%nat ]}.

(** [cls.revisions.get(revision, 48)]. *)
Definition get_key_length (revision : PdfObject) : nat :=
  match int_key revision with
  | Some r => default 48%nat (revisions !! r)
  | None => 48%nat
  end.

End SecurityRevision.

(** ** The objects supplied by pyhanko *)

Record SecurityHandler : Type := {
  udata : option bytes;
  odata : option bytes;
  oeseed : option bytes;
  ueseed : option bytes;
  encrypt_metadata : bool
}.

Record PdfFileReader : Type := {
  encrypt_dict : option (gmap string PdfObject);
  document_id : bytes * bytes;
  security_handler : SecurityHandler
}.

(** [getattr(handler, key)] for the four keys that [get_passwords] reads. *)
Definition getattr (h : SecurityHandler) (key : string) : option bytes :=
  if String.eqb key "udata" then udata h
  else if String.eqb key "odata" then odata h
  else if String.eqb key "oeseed" then oeseed h
  else if String.eqb key "ueseed" then ueseed h
  else None.

(** Truth value of an attribute that is [None] or a byte string. *)
Definition truthy (o : option bytes) : option bytes :=
  match o with
  | Some (b :: rest) => Some (b :: rest)
  | _ => None
  end.

(** ** PdfHashExtractor *)

Record PdfHashExtractor : Type := {
  self_pdf : PdfFileReader;
  self_algorithm : option PdfObject;
  self_length : PdfObject;
  self_permissions : PdfObject;
  self_revision : PdfObject
}.

Definition not_encrypted : Exception := RuntimeError "File not encrypted".

(** [PdfHashExtractor.__init__], after the reader has been built. *)
Definition init (pdf : PdfFileReader) : result PdfHashExtractor :=
  match encrypt_dict pdf with
  | None => Raise not_encrypted
  | Some d =>
      if decide (d = ∅) then Raise not_encrypted
      else
        let algorithm := d !! "/V" in
        let length := default (NumberObject 40) (d !! "/Length") in
        permissions ← getitem d "/P";
        revision ← getitem d "/R";
        Ok {| self_pdf := pdf;
              self_algorithm := algorithm;
              self_length := length;
              self_permissions := permissions;
              self_revision := revision |}
  end.

Definition keys : list string := ["udata"; "odata"; "oeseed"; "ueseed"].

(** One iteration of the loop of [get_passwords]. *)
Definition get_passwords_step (h : SecurityHandler) (max_key_length : nat)
    (passwords : list string) (key : string) : list string :=
  match truthy (getattr h key) with
  | Some data =>
      let data := firstn max_key_length data in
      passwords ++ [str_len (List.length data); hex data]
  | None => passwords
  end.

(** The list [passwords] when the loop of [get_passwords] ends. *)
Definition password_items (h : SecurityHandler) (revision : PdfObject) : list string :=
  let max_key_length := SecurityRevision.get_key_length revision in
  fold_left (get_passwords_step h max_key_length) keys [].

Definition get_passwords (self : PdfHashExtractor) : string :=
  join "*" (password_items (security_handler (self_pdf self)) (self_revision self)).

(** The list [fields] of [parse], after [map(str, ...)]. *)
Definition parse_fields (self : PdfHashExtractor) : list string :=
  let passwords := get_passwords self in
  let document_id := fst (document_id (self_pdf self)) in
  [ "$pdf$" +:+ str (self_algorithm self);
    str (Some (self_revision self));
    str (Some (self_length self));
    str (Some (self_permissions self));
    str_bool (encrypt_metadata (security_handler (self_pdf self)));
    str_len (List.length document_id);
    hex document_id;
    passwords ].

Definition parse (self : PdfHashExtractor) : string :=
  join "*" (parse_fields self).

(** Construction followed by [parse], as [extract_pdf] runs them. *)
Definition extract (pdf : PdfFileReader) : result string :=
  self ← init pdf;
  Ok (parse self).

(** ** Writing the fingerprint *)

(** The file system maps a path to the content of the file.  [with_suffix]
    stands for [Path.with_suffix] of pathlib, on paths given as strings.
    [write_fails fs p data] tells how [Path(p).write_bytes(data)] ends on
    the files [fs]: [None] when the write goes through, and otherwise the
    files that the failed write leaves behind, [OSError] being raised.

    The result of [write_to_unified_hashfile] is the path written, or
    [None] when [write_bytes] raised. *)
Definition write_to_unified_hashfile (with_suffix : string → string → string)
    (write_fails : gmap string string → string → string
                   → option (gmap string string))
    (src : string) (data : string) (fs : gmap string string)
    : option string * gmap string string :=
  let out := with_suffix src ".hash" in
  match write_fails fs out data with
  | None => (Some out, <[out := data]> fs)
  | Some fs' => (None, fs')
  end.

(** [extract_pdf]: [pyhanko] is the outcome of [ensure_pyhanko], [reader]
    the outcome of building the reader for [path].  An exception of the
    write is caught like any other: the result is [None] then. *)
Definition extract_pdf (with_suffix : string → string → string)
    (write_fails : gmap string string → string → string
                   → option (gmap string string))
    (pyhanko : bool) (reader : result PdfFileReader)
    (path : string) (fs : gmap string string)
    : option string * gmap string string :=
  if negb pyhanko then (None, fs)
  else
    match reader ≫= extract with
    | Ok txt => write_to_unified_hashfile with_suffix write_fails path txt fs
    | Raise _ => (None, fs)
    end.

(** * Notions used to state the properties *)

(** ** Alphabets *)

(** Every character of the string satisfies the test. *)
Fixpoint all_chars (P : ascii → bool) (s : string) : bool :=
  match s with
  | EmptyString => true
  | String c rest => P c && all_chars P rest
  end.

Definition is_digit (c : ascii) : bool :=
  (48 <=? N_of_ascii c)%N && (N_of_ascii c <=? 57)%N.

Definition is_lower_hex (c : ascii) : bool :=
  is_digit c || ((97 <=? N_of_ascii c)%N && (N_of_ascii c <=? 102)%N).

Definition is_int_char (c : ascii) : bool :=
  is_digit c || Ascii.eqb c "-".

Definition isnt (sep c : ascii) : bool := negb (Ascii.eqb c sep).

(** A non-empty string without ["*"]. *)
Definition plain_item (s : string) : Prop :=
  s ≠ "" ∧ all_chars (isnt "*") s = true.

(** Case analysis on the 256 characters. *)
Ltac char_cases c :=
  destruct c as [[] [] [] [] [] [] [] []]; vm_compute; try done.

(** The characters a fingerprint over integer entries is made of: the
    prefix ["$pdf$"], the delimiter, signs, digits and lowercase hex. *)
Definition is_fingerprint_char (c : ascii) : bool :=
  is_lower_hex c || Ascii.eqb c "-" || Ascii.eqb c "*"
  || Ascii.eqb c "$" || Ascii.eqb c "p".

Definition newline : ascii := ascii_of_nat 10.

(** The last character of a string, if any. *)
Fixpoint last_char (s : string) : option ascii :=
  match s with
  | EmptyString => None
  | String c EmptyString => Some c
  | String _ rest => last_char rest
  end.

(** ** Byte fields *)

(** The length limit as the documentation of the format words it:
    revisions 2 to 4 give 32, revisions 5 and 6 give 48, anything else 48. *)
Definition max_field_length (revision : PdfObject) : nat :=
  match int_key revision with
  | Some r =>
      if decide (2 ≤ r ≤ 4) then 32%nat
      else if decide (5 ≤ r ≤ 6) then 48%nat
      else 48%nat
  | None => 48%nat
  end.

(** The (length, hex) pair of a byte string. *)
Definition pair_of (data : bytes) : list string :=
  [str_len (List.length data); hex data].

(** What one attribute of the handler contributes to [passwords]. *)
Definition field_pair (max_key_length : nat) (o : option bytes) : list string :=
  match truthy o with
  | Some data => pair_of (take max_key_length data)
  | None => []
  end.

(** The order of the byte fields as the documentation of the format
    words it: owner data, user data, owner seed, user seed. *)
Definition documented_keys : list string :=
  ["odata"; "udata"; "oeseed"; "ueseed"].

Definition documented_password_fields (h : SecurityHandler)
    (revision : PdfObject) : string :=
  join "*" (flat_map
    (λ key, field_pair (max_field_length revision) (getattr h key))
    documented_keys).

(** [setattr(handler, key, value)] for the four byte attributes. *)
Definition setattr (h : SecurityHandler) (key : string) (v : option bytes)
    : SecurityHandler :=
  {| udata := if String.eqb key "udata" then v else udata h;
     odata := if String.eqb key "odata" then v else odata h;
     oeseed := if String.eqb key "oeseed" then v else oeseed h;
     ueseed := if String.eqb key "ueseed" then v else ueseed h;
     encrypt_metadata := encrypt_metadata h |}.

Definition with_handler (pdf : PdfFileReader) (h : SecurityHandler)
    : PdfFileReader :=
  {| encrypt_dict := encrypt_dict pdf;
     document_id := document_id pdf;
     security_handler := h |}.

(** The reader with the seed attributes, respectively the legacy
    validation attributes, taken off its handler. *)
Definition without_seeds (pdf : PdfFileReader) : PdfFileReader :=
  with_handler pdf
    (setattr (setattr (security_handler pdf) "oeseed" None) "ueseed" None).

Definition without_legacy (pdf : PdfFileReader) : PdfFileReader :=
  with_handler pdf
    (setattr (setattr (security_handler pdf) "udata" None) "odata" None).

(** Field presence decided by the revision, as the documentation of the
    format words it. *)
Definition presence_matches_revision (pdf : PdfFileReader) : Prop :=
  ∀ d r, encrypt_dict pdf = Some d → d !! "/R" = Some (NumberObject r) →
    (r ≤ 4 → extract pdf = extract (without_seeds pdf))
    ∧ (5 ≤ r → extract pdf = extract (without_legacy pdf)).

(** A length field and a hex field that agree with each other: they are
    the decimal length and the hex of one byte string of at most [m]
    bytes. *)
Definition consistent_pair (m : nat) (len_field hex_field : string) : Prop :=
  ∃ data : bytes,
    len_field = str_len (List.length data)
    ∧ hex_field = hex data
    ∧ int_of_str len_field = Some (Z.of_nat (List.length data))
    ∧ String.length hex_field = (2 * List.length data)%nat
    ∧ (List.length data ≤ m)%nat.

Inductive consistent_pairs (m : nat) : list string → Prop :=
| consistent_nil : consistent_pairs m []
| consistent_cons len_field hex_field rest :
    consistent_pair m len_field hex_field →
    consistent_pairs m rest →
    consistent_pairs m (len_field :: hex_field :: rest).

(** Everything of the fingerprint before the password fields. *)
Definition fingerprint_prefix (self : PdfHashExtractor) : string :=
  "$pdf$" +:+ str (self_algorithm self)
  +:+ "*" +:+ str (Some (self_revision self))
  +:+ "*" +:+ str (Some (self_length self))
  +:+ "*" +:+ str (Some (self_permissions self))
  +:+ "*" +:+ str_bool (encrypt_metadata (security_handler (self_pdf self)))
  +:+ "*" +:+ str_len (List.length (fst (document_id (self_pdf self))))
  +:+ "*" +:+ hex (fst (document_id (self_pdf self)))
  +:+ "*".

(** The extractor [self] with another reader in [self.pdf]. *)
Definition with_pdf (self : PdfHashExtractor) (pdf : PdfFileReader)
    : PdfHashExtractor :=
  {| self_pdf := pdf;
     self_algorithm := self_algorithm self;
     self_length := self_length self;
     self_permissions := self_permissions self;
     self_revision := self_revision self |}.

(** ** Dictionary entries *)

(** The entry is absent or an integer. *)
Definition int_or_absent (o : option PdfObject) : Prop :=
  match o with
  | None | Some (NumberObject _) => True
  | Some _ => False
  end.

(** ** What pyhanko guarantees

    pyhanko builds the security handler of a reader from the encryption
    dictionary of the document, and raises where it cannot: the
    dictionary must have [/V], and [/U] and [/O] must be strings of 32
    or 48 bytes.  These facts about the library are hypotheses of the
    statements that need them. *)


(** The handler holds user data, as every handler that pyhanko builds
    does. *)
Definition carries_user_data (h : SecurityHandler) : Prop :=
  is_Some (truthy (udata h)).

(** ** Sample documents *)

Definition id_deadbeef : bytes := [Byte.xde; Byte.xad; Byte.xbe; Byte.xef].

Definition dict_r4 : gmap string PdfObject :=
  {[ "/V" := NumberObject 2; "/R" := NumberObject 4;
     "/Length" := NumberObject 128; "/P" := NumberObject (-4) ]}.

Definition handler_r4 : SecurityHandler :=
  {| udata := Some (repeat Byte.x22 32);
     odata := Some (repeat Byte.x11 32);
     oeseed := None; ueseed := None;
     encrypt_metadata := false |}.

(** Revision 4, [/O] 32 bytes of 0x11 and [/U] 32 bytes of 0x22. *)
Definition reader_r4 : PdfFileReader :=
  {| encrypt_dict := Some dict_r4;
     document_id := (id_deadbeef, id_deadbeef);
     security_handler := handler_r4 |}.

Definition dict_r6 : gmap string PdfObject :=
  {[ "/V" := NumberObject 5; "/R" := NumberObject 6;
     "/Length" := NumberObject 256; "/P" := NumberObject (-3904) ]}.

(** Revision 6: the handler carries [/U] and [/O] next to the seeds. *)
Definition reader_r6 : PdfFileReader :=
  {| encrypt_dict := Some dict_r6;
     document_id := (id_deadbeef, []);
     security_handler :=
       {| udata := Some [Byte.x22; Byte.x23];
          odata := Some [Byte.x11];
          oeseed := Some (repeat Byte.xaa 16);
          ueseed := None;
          encrypt_metadata := true |} |}.




(** The revision-4 sample with its revision written as the real number
    [4.0]. *)
Definition reader_real_revision : PdfFileReader :=
  {| encrypt_dict := Some (<[ "/R" := FloatObject false 40 1 ]> dict_r4);
     document_id := (id_deadbeef, id_deadbeef);
     security_handler := handler_r4 |}.

(** A document that is not encrypted. *)
Definition reader_plain : PdfFileReader :=
  {| encrypt_dict := None;
     document_id := (id_deadbeef, id_deadbeef);
     security_handler :=
       {| udata := None; odata := None; oeseed := None; ueseed := None;
          encrypt_metadata := true |} |}.

(** The revision-6 sample with another second identifier and one more
    entry in its dictionary, neither of which the extractor reads. *)
Definition reader_r6_variant : PdfFileReader :=
  {| encrypt_dict := Some (<[ "/Filter" := NameObject "/Standard" ]> dict_r6);
     document_id := (id_deadbeef, id_deadbeef);
     security_handler := security_handler reader_r6 |}.

(** ** Paths

    pathlib on the text of a resolved POSIX path: no trailing slash, no
    empty, [.] or [..] component. *)

(** The text after the last occurrence of [c], if [c] occurs. *)
Fixpoint after_last (c : ascii) (s : string) : option string :=
  match s with
  | EmptyString => None
  | String a rest =>
      match after_last c rest with
      | Some tail => Some tail
      | None => if Ascii.eqb a c then Some rest else None
      end
  end.

(** [PurePosixPath(p).name]. *)
Definition name_of (p : string) : string := default p (after_last "/" p).

(** [PurePosixPath(p).suffix]: the name from its last dot on, unless that
    dot starts or ends the name. *)
Definition suffix_of (p : string) : string :=
  match name_of p with
  | EmptyString => EmptyString
  | String _ rest =>
      match after_last "." rest with
      | Some (String a ext) => String "." (String a ext)
      | _ => EmptyString
      end
  end.

(** [str(PurePosixPath(p).with_suffix(suffix))] for a path that has a
    name and a suffix that starts with a dot: the old suffix, if any, is
    replaced. *)
Definition posix_with_suffix (p suffix : string) : string :=
  substring 0 (String.length p - String.length (suffix_of p)) p +:+ suffix.

(** Writes that always go through. *)
Definition write_succeeds (fs : gmap string string) (p data : string)
    : option (gmap string string) := None.

(** A disk on which no file can be created: every write raises and
    leaves the files as they were. *)
Definition read_only (fs : gmap string string) (p data : string)
    : option (gmap string string) := Some fs.

(** * The command-line tool around the extractor

    The rest of [hashbaker.py]: type detection, the helpers that run
    external tools, and [main].  What the operating system supplies is
    collected in [Env]; the files and the lines printed are the state
    [World] that the functions pass along.  Directories are paths of the
    file map like files, and file modes are not kept.  The directory of
    helper scripts is made when the module is loaded, before [main]
    runs. *)

(** ** Python string methods, on ASCII text *)

Definition lower_char (c : ascii) : ascii :=
  let n := N_of_ascii c in
  if (65 <=? n)%N && (n <=? 90)%N then ascii_of_N (n + 32) else c.

(** [s.lower()]. *)
Fixpoint lower (s : string) : string :=
  match s with
  | EmptyString => EmptyString
  | String c rest => String (lower_char c) (lower rest)
  end.

(** [s.lstrip(c)] for a single character [c]. *)
Fixpoint lstrip_char (c : ascii) (s : string) : string :=
  match s with
  | EmptyString => EmptyString
  | String a rest => if Ascii.eqb a c then lstrip_char c rest else s
  end.

(** [c.isspace()]: tab to carriage return, the separators 28 to 31, space. *)
Definition is_space (c : ascii) : bool :=
  let n := N_of_ascii c in
  ((9 <=? n)%N && (n <=? 13)%N) || ((28 <=? n)%N && (n <=? 32)%N).

Fixpoint lstrip (s : string) : string :=
  match s with
  | EmptyString => EmptyString
  | String a rest => if is_space a then lstrip rest else s
  end.

Fixpoint rstrip (s : string) : string :=
  match s with
  | EmptyString => EmptyString
  | String a rest =>
      match rstrip rest with
      | EmptyString => if is_space a then EmptyString else String a EmptyString
      | kept => String a kept
      end
  end.

(** [s.strip()]. *)
Definition strip (s : string) : string := rstrip (lstrip s).

(** [s.endswith(suffix)]. *)
Fixpoint endswith (s suffix : string) : bool :=
  String.eqb s suffix
  || match s with
     | EmptyString => false
     | String _ rest => endswith rest suffix
     end.

(** [sub in s]. *)
Fixpoint contains (sub s : string) : bool :=
  String.prefix sub s
  || match s with
     | EmptyString => false
     | String _ rest => contains sub rest
     end.

(** Truth value of a string that may be [None]. *)
Definition truthy_str (o : option string) : option string :=
  match o with
  | Some (String c rest) => Some (String c rest)
  | _ => None
  end.

(** ** Config *)

Definition AUTHOR : string := "Prasanth-kumar-s".
Definition GITHUB : string := "Prasanth-kumar-s".
Definition TOOL_NAME : string := "HashBaker".
Definition VERSION : string := "2.1".

Definition REQUIRED_TOOLS : list string :=
  ["john"; "hashcat"; "hcxtools"; "p7zip-full"; "unzip"; "unrar-free";
   "perl"; "file"; "poppler-utils"].

Definition SEVENZ2HASHCAT_RAW : string :=
  "https://raw.githubusercontent.com/philsmd/7z2hashcat/master/7z2hashcat.pl".

(** ** The environment and the state *)

(** A [pathlib.Path]: what [str(path)], [path.name] and [path.suffix]
    give. *)
Record Path : Type := {
  path_str : string;
  path_name : string;
  path_suffix : string
}.

(** Why a process could not be started. *)
Inductive spawn_error : Type :=
| exe_not_found
| spawn_failed.

Record Env : Type := {
  (** [shutil.which(prog)], given the files. *)
  env_which : gmap string string → string → option string;
  (** A finished process: return code, standard output, files afterwards. *)
  env_spawn : list string → gmap string string
              → spawn_error + (Z * string * gmap string string);
  (** [bytes.decode()]; [None] when the bytes are not valid text. *)
  env_decode : string → option string;
  (** [os.geteuid()]. *)
  env_geteuid : Z;
  (** [urlopen(url)]: the status and the body, [None] when it raises. *)
  env_urlopen : string → option (Z * string);
  (** Whether [import pyhanko] succeeds, given the files. *)
  env_import_pyhanko : gmap string string → bool;
  (** [sys.executable]. *)
  env_executable : string;
  (** The reader that pyhanko builds for a path, given the files. *)
  env_open_reader : string → gmap string string → result PdfFileReader;
  (** [Path.with_suffix], on paths given as strings, for a path that has
      a name. *)
  env_with_suffix : string → string → string;
  (** How [Path(p).write_bytes(data)] ends, given the files: [None] when
      the write goes through, otherwise the files that the failed write
      leaves, [OSError] being raised. *)
  env_write_fails : gmap string string → string → string
                    → option (gmap string string);
  (** Whether [p.chmod(p.stat().st_mode | 0o100)] raises, given the
      files. *)
  env_chmod_fails : gmap string string → string → bool;
  (** [Path(arg).expanduser().resolve()], for an argument that pathlib
      can expand and resolve. *)
  env_resolve : string → Path;
  (** [str(SCRIPTS_DIR)]. *)
  env_scripts_dir : string
}.

Record World : Type := {
  files : gmap string string;
  printed : list string
}.

(** What a Python call can raise here.  [SystemExit] is not an
    [Exception]; the others are. *)
Inductive Raised : Type :=
| FileNotFoundError
| CalledProcessError (returncode : Z)
| OSError
| IndexError
| SystemExit (code : Z).

Definition is_Exception (e : Raised) : bool :=
  match e with
  | SystemExit _ => false
  | _ => true
  end.

Inductive outcome (A : Type) : Type :=
| Returns (a : A)
| Raises (e : Raised).
Arguments Returns {A} a.
Arguments Raises {A} e.

(** A call: from the state before to the outcome and the state after. *)
Definition M (A : Type) : Type := World → outcome A * World.

Global Instance M_ret : MRet M := λ A a w, (Returns a, w).

Global Instance M_bind : MBind M := λ A B k m w,
  match m w with
  | (Returns a, w') => k a w'
  | (Raises e, w') => (Raises e, w')
  end.

(** [try: body except Exception: handler]. *)
Definition except_Exception {A : Type} (body handler : M A) : M A := λ w,
  match body w with
  | (Raises e, w') => if is_Exception e then handler w' else (Raises e, w')
  | done => done
  end.

(** [print(line)]. *)
Definition print (line : string) : M unit := λ w,
  (Returns tt, {| files := files w; printed := printed w ++ [line] |}).

(** [sys.exit(code)]. *)
Definition sys_exit {A : Type} (code : Z) : M A := λ w,
  (Raises (SystemExit code), w).

(** [Path(p).exists()]. *)
Definition path_exists (p : string) : M bool := λ w,
  (Returns (bool_decide (is_Some (files w !! p))), w).

(** [Path(p).write_bytes(data)]. *)
Definition write_bytes (env : Env) (p data : string) : M unit := λ w,
  match env_write_fails env (files w) p data with
  | None =>
      (Returns tt, {| files := <[p := data]> (files w); printed := printed w |})
  | Some fs => (Raises OSError, {| files := fs; printed := printed w |})
  end.

(** [p.chmod(p.stat().st_mode | 0o100)]. *)
Definition chmod_owner_execute (env : Env) (p : string) : M unit := λ w,
  if env_chmod_fails env (files w) p then (Raises OSError, w)
  else (Returns tt, w).

(** ** Utilities *)

(** [subprocess.run(cmd, ..., check=check)] with the output captured or
    discarded. *)
Definition subprocess_run (env : Env) (cmd : list string) (check : bool)
    : M (Z * string) := λ w,
  match env_spawn env cmd (files w) with
  | inl exe_not_found => (Raises FileNotFoundError, w)
  | inl spawn_failed => (Raises OSError, w)
  | inr (returncode, stdout, fs) =>
      let w' := {| files := fs; printed := printed w |} in
      if check && negb (returncode =? 0)
      then (Raises (CalledProcessError returncode), w')
      else (Returns (returncode, stdout), w')
  end.

(** [run_quiet]; the result is the return code of the completed process. *)
Definition run_quiet (env : Env) (cmd : list string) (check : bool) : M Z := λ w,
  match subprocess_run env cmd check w with
  | (Returns (returncode, _), w') => (Returns returncode, w')
  | (Raises FileNotFoundError, w') => (Returns 127, w')
  | (Raises e, w') => (Raises e, w')
  end.

Definition run_capture (env : Env) (cmd : list string) : M (option string) :=
  except_Exception
    (res ← subprocess_run env cmd false;
     match res with
     | (returncode, String c rest) =>
         if returncode =? 0 then mret (Some (String c rest)) else mret None
     | (_, EmptyString) => mret None
     end)
    (mret None).

Definition is_root (env : Env) : bool := env_geteuid env =? 0.

Definition which (env : Env) (prog : string) : M (option string) := λ w,
  (Returns (env_which env (files w) prog), w).

Definition download_raw (env : Env) (url dest : string) : M bool :=
  match env_urlopen env url with
  | Some (status, data) =>
      if negb (status =? 200) then mret false
      else
        except_Exception
          (_ ← write_bytes env dest data;
           _ ← chmod_owner_execute env dest;
           mret true)
          (mret false)
  | None => mret false
  end.

(** ** ensure_pyhanko *)

(** [import pyhanko]: whether it succeeds. *)
Definition import_pyhanko (env : Env) : M bool := λ w,
  (Returns (env_import_pyhanko env (files w)), w).

Definition ensure_pyhanko (env : Env) : M bool :=
  ok ← import_pyhanko env;
  if ok : bool then mret true
  else
    except_Exception
      (_ ← subprocess_run env
             [env_executable env; "-m"; "pip"; "install"; "--user"; "pyhanko"]
             true;
       import_pyhanko env)
      (mret false).

(** ** Type detection *)

Definition office_extensions : list string :=
  ["doc"; "docx"; "xls"; "xlsx"; "ppt"; "pptx"].

Definition pcap_extensions : list string := ["pcap"; "cap"; "pcapng"].

(** The tests of [detect_type] on the extension and the name. *)
Definition detect_by_name (path : Path) : option string :=
  let ext := lstrip_char "." (lower (path_suffix path)) in
  if String.eqb ext "pdf" then Some "pdf"
  else if bool_decide (ext ∈ office_extensions) then Some "office"
  else if String.eqb ext "zip" then Some "zip"
  else if String.eqb ext "rar" then Some "rar"
  else if String.eqb ext "7z" then Some "7z"
  else if bool_decide (ext ∈ pcap_extensions) then Some "pcap"
  else if endswith (lower (path_name path)) "ntds.dit" then Some "ntds"
  else None.

(** The tests of [detect_type] on the MIME type that [file] reports. *)
Definition detect_by_mime (mime : string) : option string :=
  if contains "pdf" mime then Some "pdf"
  else if contains "pcap" mime then Some "pcap"
  else if contains "zip" mime then Some "zip"
  else if contains "rar" mime || contains "x-rar" mime then Some "rar"
  else if contains "7z" mime then Some "7z"
  else None.

Definition detect_type (env : Env) (path : Path) : M string :=
  match detect_by_name path with
  | Some t => mret t
  | None =>
      f ← which env "file";
      match truthy_str f with
      | Some f =>
          except_Exception
            (out ← subprocess_run env
                     [f; "-b"; "--mime-type"; path_str path] false;
             match env_decode env (snd out) with
             | Some text =>
                 mret (default "unknown" (detect_by_mime (lower (strip text))))
             | None => mret "unknown"
             end)
            (mret "unknown")
      | None => mret "unknown"
      end
  end.

(** ** Auto-install *)

Definition auto_install (env : Env) : M unit :=
  if negb (is_root env) then
    _ ← print "Error: must run as root to install dependencies.";
    sys_exit 1
  else
    _ ← run_quiet env ["apt-get"; "update"] true;
    _ ← run_quiet env (["apt-get"; "install"; "-y"] ++ REQUIRED_TOOLS) true;
    mret tt.

(** ** Extraction helpers *)

(** [write_to_unified_hashfile] on the state. *)
Definition write_hashfile (env : Env) (src : Path) (data : string) : M string := λ w,
  match write_to_unified_hashfile (env_with_suffix env) (env_write_fails env)
          (path_str src) data (files w) with
  | (Some out, fs) => (Returns out, {| files := fs; printed := printed w |})
  | (None, fs) => (Raises OSError, {| files := fs; printed := printed w |})
  end.

(** The body of [extract_pdf] after [ensure_pyhanko], on the state: the
    reader is the one that pyhanko builds from the files. *)
Definition extract_pdf_with (env : Env) (path : Path) (pyhanko : bool)
    : M (option string) := λ w,
  let '(out, fs) :=
    extract_pdf (env_with_suffix env) (env_write_fails env) pyhanko
      (env_open_reader env (path_str path) (files w))
      (path_str path) (files w) in
  (Returns out, {| files := fs; printed := printed w |}).

(** [extract_pdf] on the state. *)
Definition run_extract_pdf (env : Env) (path : Path) : M (option string) :=
  pyhanko ← ensure_pyhanko env;
  extract_pdf_with env path pyhanko.

Definition extract_with_john_tool (env : Env) (tool : string) (path : Path)
    : M (option string) :=
  exe ← which env tool;
  match truthy_str exe with
  | None => mret None
  | Some exe =>
      res ← run_capture env [exe; path_str path];
      match truthy_str res with
      | Some data => out ← write_hashfile env path data; mret (Some out)
      | None => mret None
      end
  end.

Definition extract_7z (env : Env) (path : Path) : M (option string) :=
  let local := env_scripts_dir env +:+ "/7z2hashcat.pl" in
  on_path ← which env "7z2hashcat.pl";
  here ← path_exists local;
  _ ← (if negb (bool_decide (is_Some (truthy_str on_path))) && negb here
       then download_raw env SEVENZ2HASHCAT_RAW local
       else mret false);
  on_path ← which env "7z2hashcat.pl";
  here ← path_exists local;
  let helper :=
    match truthy_str on_path with
    | Some h => Some h
    | None => if here : bool then Some local else None
    end in
  match truthy_str helper with
  | Some helper =>
      let cmd :=
        if endswith helper ".pl" then ["perl"; helper; path_str path]
        else [helper; path_str path] in
      res ← run_capture env cmd;
      match truthy_str res with
      | Some data => out ← write_hashfile env path data; mret (Some out)
      | None => mret None
      end
  | None => mret None
  end.

Definition extract_pcap (env : Env) (path : Path) : M (option string) :=
  ex ← which env "hcxpcapngtool";
  ex ← match truthy_str ex with
       | Some ex => mret (Some ex)
       | None => which env "hcxpcaptool"
       end;
  match truthy_str ex with
  | None => mret None
  | Some ex =>
      let outname := env_with_suffix env (path_str path) ".hash" in
      except_Exception
        (_ ← run_quiet env [ex; "-o"; outname; path_str path] false;
         there ← path_exists outname;
         if there : bool then mret (Some outname) else mret None)
        (mret None)
  end.

(** [a or b] for two calls that return a path or [None]. *)
Definition or_else (a b : M (option string)) : M (option string) :=
  r ← a;
  match r with
  | Some out => mret (Some out)
  | None => b
  end.

Definition extract_hash (env : Env) (path : Path) : M (option string) :=
  t ← detect_type env path;
  if String.eqb t "pdf" then run_extract_pdf env path
  else if String.eqb t "office" then
    or_else (extract_with_john_tool env "office2john.py" path)
            (extract_with_john_tool env "office2john" path)
  else if String.eqb t "zip" then extract_with_john_tool env "zip2john" path
  else if String.eqb t "rar" then extract_with_john_tool env "rar2john" path
  else if String.eqb t "7z" then extract_7z env path
  else if String.eqb t "pcap" then extract_pcap env path
  else if String.eqb t "ntds" then
    or_else (extract_with_john_tool env "ntds2john.py" path)
            (extract_with_john_tool env "ntds2john" path)
  else mret None.

(** ** Banner and minimal output *)

Definition esc : string := String (ascii_of_nat 27) EmptyString.
Definition nl : string := String (ascii_of_nat 10) EmptyString.
Definition dq : string := String (ascii_of_nat 34) EmptyString.

Definition banner : string :=
  esc +:+ "[1;36m" +:+ nl
  +:+ "ooooo   ooooo       .o.        .oooooo..o ooooo   ooooo      oooooooooo.        .o.       oooo    oooo oooooooooooo ooooooooo.   " +:+ nl
  +:+ "`888'   `888'      .888.      d8P'    `Y8 `888'   `888'      `888'   `Y8b      .888.      `888   .8P'  `888'     `8 `888   `Y88. " +:+ nl
  +:+ " 888     888      .8" +:+ dq +:+ "888.     Y88bo.       888     888        888     888     .8" +:+ dq +:+ "888.      888  d8'     888          888   .d88' " +:+ nl
  +:+ " 888ooooo888     .8' `888.     `" +:+ dq +:+ "Y8888o.   888ooooo888        888oooo888'    .8' `888.     88888[       888oooo8     888ooo88P'  " +:+ nl
  +:+ " 888     888    .88ooo8888.        `" +:+ dq +:+ "Y88b  888     888        888    `88b   .88ooo8888.    888`88b.     888    " +:+ dq +:+ "     888`88b.    " +:+ nl
  +:+ " 888     888   .8'     `888.  oo     .d8P  888     888        888    .88P  .8'     `888.   888  `88b.   888       o  888  `88b.  " +:+ nl
  +:+ "o888o   o888o o88o     o8888o 8" +:+ dq +:+ dq +:+ "88888P'  o888o   o888o      o888bood8P'  o88o     o8888o o888o  o888o o888ooooood8 o888o  o888o " +:+ nl
  +:+ esc +:+ "[0m" +:+ esc +:+ "[1;33m" +:+ nl
  +:+ " " +:+ TOOL_NAME +:+ "  -  Version " +:+ VERSION +:+ " " +:+ nl
  +:+ " Author: " +:+ AUTHOR +:+ "   GitHub: " +:+ GITHUB +:+ esc +:+ "[0m" +:+ nl.

Definition print_success (out : string) : M unit :=
  _ ← print banner;
  _ ← print "Extraction successful.";
  _ ← print out;
  sys_exit 0.

Definition print_failure (reason : option string) : M unit :=
  _ ← print banner;
  _ ← print "Extraction failed.";
  _ ← match truthy_str reason with
      | Some reason => print reason
      | None => mret tt
      end;
  sys_exit 2.

(** ** Main *)

(** [argv[i]]. *)
Definition argv_get (argv : list string) (i : nat) : M string := λ w,
  match argv !! i with
  | Some arg => (Returns arg, w)
  | None => (Raises IndexError, w)
  end.

Definition usage_requested (argv : list string) : bool :=
  negb (List.length argv =? 2)%nat
  || match argv !! 1%nat with
     | Some arg => bool_decide (arg ∈ ["-h"; "--help"])
     | None => false
     end.

Definition main (env : Env) (argv : list string) : M unit :=
  if usage_requested argv then
    _ ← print banner;
    arg0 ← argv_get argv 0;
    _ ← print ("Usage: " +:+ arg0 +:+ " <protected_file_path>");
    sys_exit 0
  else
    arg1 ← argv_get argv 1;
    let src := env_resolve env arg1 in
    there ← path_exists (path_str src);
    _ ← (if negb there then print_failure (Some "Error: file not found.")
         else mret tt);
    _ ← except_Exception (auto_install env) (mret tt);
    out ← extract_hash env src;
    match out with
    | Some out => print_success out
    | None =>
        t ← detect_type env src;
        if String.eqb t "pdf" then
          print_failure (Some "PDF extraction failed: pyhanko missing or unsupported PDF protection.")
        else if String.eqb t "pcap" then
          print_failure (Some "PCAP extraction failed: hcxpcapngtool missing or no WPA handshake present.")
        else
          print_failure (Some "Extractor missing or file format unsupported.")
    end.

(** The exit status of the process that runs [main]: the code of
    [sys.exit], 1 for an exception that nothing catches, 0 at the end. *)
Definition exit_status (o : outcome unit) : Z :=
  match o with
  | Returns _ => 0
  | Raises (SystemExit code) => code
  | Raises _ => 1
  end.

(** ** Notions used to state the properties of the tool *)

(** The call never raises and prints nothing. *)
Definition quiet {A : Type} (m : M A) : Prop :=
  ∀ w, ∃ a w', m w = (Returns a, w') ∧ printed w' = printed w.

(** The call prints nothing and raises nothing but an [Exception]. *)
Definition tame {A : Type} (m : M A) : Prop :=
  ∀ w o w', m w = (o, w') →
    printed w' = printed w ∧ ∀ e, o = Raises e → is_Exception e = true.

(** Some write of the [.hash] sibling of the source fails. *)
Definition hashfile_write_fails (env : Env) (path : Path) : Prop :=
  ∃ fs data,
    is_Some (env_write_fails env fs
               (env_with_suffix env (path_str path) ".hash") data).

(** The call prints nothing and raises nothing but the [OSError] of a
    failed write of the [.hash] sibling of the source. *)
Definition careful (env : Env) (path : Path) {A : Type} (m : M A) : Prop :=
  ∀ w o w', m w = (o, w') →
    printed w' = printed w
    ∧ ∀ e, o = Raises e → e = OSError ∧ hashfile_write_fails env path.

(** The names that [detect_type] gives to the types. *)
Definition type_names : list string :=
  ["pdf"; "office"; "zip"; "rar"; "7z"; "pcap"; "ntds"; "unknown"].

(** The extensions that [detect_type] knows, with their types. *)
Definition extension_types : list (string * string) :=
  [("pdf", "pdf");
   ("doc", "office"); ("docx", "office"); ("xls", "office");
   ("xlsx", "office"); ("ppt", "office"); ("pptx", "office");
   ("zip", "zip"); ("rar", "rar"); ("7z", "7z");
   ("pcap", "pcap"); ("cap", "pcap"); ("pcapng", "pcap")].

(** The state with other files. *)
Definition with_files (w : World) (fs : gmap string string) : World :=
  {| files := fs; printed := printed w |}.

(** The state with more lines printed. *)
Definition with_printed (w : World) (lines : list string) : World :=
  {| files := files w; printed := printed w ++ lines |}.

(** [hashcat]'s view of a fingerprint: [bytes.fromhex], the inverse of
    [hex]. *)
Definition unhex_digit (c : ascii) : option N :=
  let n := N_of_ascii c in
  if (48 <=? n)%N && (n <=? 57)%N then Some (n - 48)%N
  else if (97 <=? n)%N && (n <=? 102)%N then Some (n - 87)%N
  else None.

Fixpoint unhex (s : string) : option bytes :=
  match s with
  | EmptyString => Some []
  | String hi (String lo rest) =>
      h ← unhex_digit hi;
      l ← unhex_digit lo;
      b ← Byte.of_N (16 * h + l);
      data ← unhex rest;
      Some (b :: data)
  | String _ EmptyString => None
  end.

(** The byte fields that [get_passwords] emits, cut to the limit, in the
    order of emission. *)
Definition emitted_data (h : SecurityHandler) (revision : PdfObject)
    : list bytes :=
  omap (λ key, take (SecurityRevision.get_key_length revision)
                 <$> truthy (getattr h key)) keys.

(** The capture tool that [extract_pcap] picks: the first of
    [hcxpcapngtool] and [hcxpcaptool] that [which] finds. *)
Definition pcap_tool (env : Env) (fs : gmap string string) : option string :=
  match truthy_str (env_which env fs "hcxpcapngtool") with
  | Some ex => Some ex
  | None => truthy_str (env_which env fs "hcxpcaptool")
  end.

(** The path of the helper script of [extract_7z]. *)
Definition local_helper (env : Env) : string :=
  env_scripts_dir env +:+ "/7z2hashcat.pl".

(** A call that, when it returns a path, returns the [.hash] sibling of
    the source, and that file exists afterwards. *)
Definition yields_hashfile (env : Env) (path : Path) (m : M (option string))
    : Prop :=
  ∀ w out w', m w = (Returns (Some out), w') →
    out = env_with_suffix env (path_str path) ".hash"
    ∧ is_Some (files w' !! out).

(** A state in which one archive exists and nothing has been printed. *)
Definition world_with_zip : World :=
  {| files := {[ "/tmp/a.zip" := "PK" ]}; printed := [] |}.

(** The entries that [parse] prints are integers, the algorithm version
    possibly absent. *)
Definition integer_entries (self : PdfHashExtractor) : Prop :=
  int_or_absent (self_algorithm self)
  ∧ int_or_absent (Some (self_revision self))
  ∧ int_or_absent (Some (self_length self))
  ∧ int_or_absent (Some (self_permissions self)).

(** ** Sample environments *)

Definition path_of (s name suffix : string) : Path :=
  {| path_str := s; path_name := name; path_suffix := suffix |}.

(** Resolving an argument that is a resolved path already. *)
Definition sample_resolve (s : string) : Path :=
  path_of s (name_of s) (suffix_of s).

(** A machine without any of the tools, for a user who is not root. *)
Definition bare_env : Env :=
  {| env_which := λ _ _, None;
     env_spawn := λ _ _, inl exe_not_found;
     env_decode := Some;
     env_geteuid := 1000;
     env_urlopen := λ _, None;
     env_import_pyhanko := λ _, false;
     env_executable := "/usr/bin/python3";
     env_open_reader := λ _ _, Raise (PdfReadError "no reader");
     env_with_suffix := posix_with_suffix;
     env_write_fails := write_succeeds;
     env_chmod_fails := λ _ _, false;
     env_resolve := sample_resolve;
     env_scripts_dir := "/opt/hashbaker/helper_scripts" |}.

(** Root on a machine where every tool is found under [/usr/bin], each
    process prints ["hash"] and exits with 0, and pyhanko reads the
    revision-6 sample. *)
Definition full_env : Env :=
  {| env_which := λ _ prog, Some ("/usr/bin/" +:+ prog);
     env_spawn := λ _ fs, inr (0, "hash", fs);
     env_decode := Some;
     env_geteuid := 0;
     env_urlopen := λ _, None;
     env_import_pyhanko := λ _, true;
     env_executable := "/usr/bin/python3";
     env_open_reader := λ _ _, Ok reader_r6;
     env_with_suffix := posix_with_suffix;
     env_write_fails := write_succeeds;
     env_chmod_fails := λ _ _, false;
     env_resolve := sample_resolve;
     env_scripts_dir := "/opt/hashbaker/helper_scripts" |}.

(** The same machine with a disk that takes no write. *)
Definition read_only_env : Env :=
  {| env_which := λ _ prog, Some ("/usr/bin/" +:+ prog);
     env_spawn := λ _ fs, inr (0, "hash", fs);
     env_decode := Some;
     env_geteuid := 0;
     env_urlopen := λ _, None;
     env_import_pyhanko := λ _, true;
     env_executable := "/usr/bin/python3";
     env_open_reader := λ _ _, Ok reader_r6;
     env_with_suffix := posix_with_suffix;
     env_write_fails := read_only;
     env_chmod_fails := λ _ _, false;
     env_resolve := sample_resolve;
     env_scripts_dir := "/opt/hashbaker/helper_scripts" |}.

Definition empty_world : World := {| files := ∅; printed := [] |}.

(** A machine where the 7z helper has to be fetched: nothing is on the
    path, the download answers with status 200, and every process that
    is started prints a hash line and exits with 0. *)
Definition fetch_env : Env :=
  {| env_which := λ _ _, None;
     env_spawn := λ _ fs, inr (0, "$7z$0$19$0$salt", fs);
     env_decode := Some;
     env_geteuid := 0;
     env_urlopen := λ _, Some (200, "#!/usr/bin/env perl");
     env_import_pyhanko := λ _, false;
     env_executable := "/usr/bin/python3";
     env_open_reader := λ _ _, Raise (PdfReadError "no reader");
     env_with_suffix := posix_with_suffix;
     env_write_fails := write_succeeds;
     env_chmod_fails := λ _ _, false;
     env_resolve := sample_resolve;
     env_scripts_dir := "/opt/hashbaker/helper_scripts" |}.

(** * Strings: lengths, alphabets, joining and splitting *)


Lemma hex_length (data : bytes) :
  String.length (hex data) = (2 * List.length data)%nat.
Proof. induction data as [|b data IH]; simpl; [done | rewrite IH; lia]. Qed.

Lemma all_chars_app P a b :
  all_chars P (a +:+ b) = all_chars P a && all_chars P b.
Proof.
  induction a as [|c a IH]; simpl; [done | by rewrite IH, andb_assoc].
Qed.

Lemma all_chars_weaken (P Q : ascii → bool) s :
  (∀ c, P c = true → Q c = true) → all_chars P s = true → all_chars Q s = true.
Proof.
  intros HPQ. induction s as [|c s IH]; simpl; [done |].
  intros [Hc Hs]%andb_true_iff. rewrite (HPQ _ Hc). simpl. by apply IH.
Qed.

Lemma all_chars_join P sep items :
  all_chars P sep = true →
  Forall (λ s, all_chars P s = true) items →
  all_chars P (join sep items) = true.
Proof.
  intros Hsep. unfold join. induction 1 as [|x l Hx Hl IH]; simpl; [done |].
  destruct l as [|y l]; [done |].
  rewrite !all_chars_app, Hx, Hsep. simpl. exact IH.
Qed.

Lemma hex_byte_lower_hex (b : byte) :
  is_lower_hex (hexdigit (Byte.to_N b / 16)) = true
  ∧ is_lower_hex (hexdigit (Byte.to_N b mod 16)) = true.
Proof. destruct b; vm_compute; split; reflexivity. Qed.

Lemma hex_lower_hex (data : bytes) : all_chars is_lower_hex (hex data) = true.
Proof.
  induction data as [|b data IH]; simpl; [done |].
  destruct (hex_byte_lower_hex b) as [-> ->]. exact IH.
Qed.

(** *** Decimal numerals *)

Lemma uint_digits (d : Decimal.uint) :
  all_chars is_digit (NilZero.string_of_uint d) = true.
Proof.
  assert (all_chars is_digit (NilEmpty.string_of_uint d) = true) as H
    by (induction d; simpl; done).
  destruct d; done.
Qed.

Lemma str_int_nonneg (n : Z) :
  0 ≤ n → all_chars is_digit (str_int n) = true.
Proof.
  intros Hn. unfold str_int. destruct n as [|p|p]; [done | | lia].
  apply uint_digits.
Qed.

Lemma str_int_neg (n : Z) :
  n < 0 → str_int n = String "-" (str_int (- n)).
Proof. intros Hn. destruct n as [|p|p]; [lia | lia | done]. Qed.

Lemma str_int_chars (n : Z) : all_chars is_int_char (str_int n) = true.
Proof.
  assert (∀ m, 0 ≤ m → all_chars is_int_char (str_int m) = true) as Hpos.
  { intros m Hm. eapply all_chars_weaken, str_int_nonneg; [|done].
    intros c Hc. unfold is_int_char. by rewrite Hc. }
  destruct (decide (0 ≤ n)) as [Hn|Hn]; [by apply Hpos |].
  rewrite str_int_neg by lia. simpl. apply Hpos. lia.
Qed.

Lemma str_int_nonempty (n : Z) : str_int n ≠ "".
Proof.
  unfold str_int. destruct n as [|p|p]; [done | | done].
  simpl. pose proof (DecimalPos.Unsigned.to_uint_nonnil p) as Hp.
  destruct (Pos.to_uint p); done.
Qed.

(** Reading the numeral back gives the integer that was printed. *)
Lemma int_of_str_int (n : Z) : int_of_str (str_int n) = Some n.
Proof.
  unfold int_of_str, str_int.
  rewrite NilZero.isi.
  - simpl. by rewrite DecimalZ.of_to.
  - destruct n as [|p|p]; try done. simpl.
    pose proof (DecimalPos.Unsigned.to_uint_nonnil p). congruence.
  - destruct n as [|p|p]; try done. simpl.
    pose proof (DecimalPos.Unsigned.to_uint_nonnil p). congruence.
Qed.

Lemma str_int_inj (n m : Z) : str_int n = str_int m → n = m.
Proof.
  intros H. apply (f_equal int_of_str) in H.
  rewrite !int_of_str_int in H. congruence.
Qed.

(** *** Splitting a joined string *)

Lemma split_on_plain sep s :
  all_chars (isnt sep) s = true → split_on sep s = [s].
Proof.
  induction s as [|c s IH]; simpl; [done |].
  intros [Hc Hs]%andb_true_iff. unfold isnt in Hc.
  apply negb_true_iff in Hc. rewrite Hc, (IH Hs). done.
Qed.

Lemma split_on_app sep a rest :
  all_chars (isnt sep) a = true →
  split_on sep (a +:+ String sep rest) = a :: split_on sep rest.
Proof.
  induction a as [|c a IH]; simpl.
  - intros _. by rewrite Ascii.eqb_refl.
  - intros [Hc Ha]%andb_true_iff. unfold isnt in Hc.
    apply negb_true_iff in Hc. rewrite Hc, (IH Ha). done.
Qed.

Lemma split_on_join sep items :
  items ≠ [] →
  Forall (λ s, all_chars (isnt sep) s = true) items →
  split_on sep (join (String sep "") items) = items.
Proof.
  intros Hne Hall. unfold join.
  induction Hall as [|x l Hx Hl IH]; [done |].
  destruct l as [|y l].
  - simpl. by apply split_on_plain.
  - change (String.concat (String sep "") (x :: y :: l))
      with (x +:+ String sep (String.concat (String sep "") (y :: l))).
    rewrite split_on_app by done. f_equal. by apply IH.
Qed.


(** * The extractor *)

(** ** The revision table *)

Lemma get_key_length_spec (revision : PdfObject) :
  SecurityRevision.get_key_length revision = max_field_length revision.
Proof.
  unfold SecurityRevision.get_key_length, max_field_length.
  destruct (int_key revision) as [r|]; [|done].
  unfold SecurityRevision.revisions.
  repeat (rewrite lookup_insert; case_decide;
          [subst r; repeat case_decide; try lia; done |]).
  rewrite lookup_singleton. case_decide; [subst r; done |].
  repeat case_decide; try lia; done.
Qed.

(** ** The loop of [get_passwords] *)

Lemma get_passwords_loop (h : SecurityHandler) (m : nat) (ks acc : list string) :
  fold_left (get_passwords_step h m) ks acc
  = acc ++ flat_map (λ key, field_pair m (getattr h key)) ks.
Proof.
  revert acc. induction ks as [|k ks IH]; intros acc; simpl.
  - by rewrite app_nil_r.
  - rewrite IH. unfold get_passwords_step, field_pair, pair_of.
    destruct (truthy (getattr h k)); simpl; [|done].
    by rewrite <- app_assoc.
Qed.

Lemma password_items_fields (h : SecurityHandler) (revision : PdfObject) :
  password_items h revision =
  let m := max_field_length revision in
  field_pair m (udata h) ++ field_pair m (odata h)
    ++ field_pair m (oeseed h) ++ field_pair m (ueseed h).
Proof.
  unfold password_items. rewrite get_passwords_loop, get_key_length_spec.
  simpl. by rewrite app_nil_r.
Qed.

Lemma length_take_min (m : nat) (data : bytes) :
  List.length (take m data) = Nat.min (List.length data) m.
Proof. rewrite length_take. lia. Qed.

Lemma max_field_length_pos (revision : PdfObject) :
  (0 < max_field_length revision)%nat.
Proof.
  unfold max_field_length.
  destruct (int_key revision); repeat case_decide; lia.
Qed.

Lemma field_pair_cases (m : nat) (o : option bytes) :
  (truthy o = None ∧ field_pair m o = [])
  ∨ (∃ data, truthy o = Some data ∧ data ≠ []
       ∧ field_pair m o = pair_of (take m data)).
Proof.
  unfold field_pair. destruct o as [[|b data]|]; simpl; auto.
  right. exists (b :: data). done.
Qed.

Lemma consistent_pair_of (m : nat) (data : bytes) :
  (List.length data ≤ m)%nat →
  consistent_pair m (str_len (List.length data)) (hex data).
Proof.
  intros Hm. exists data. repeat split; [| apply hex_length | done].
  apply int_of_str_int.
Qed.

Lemma consistent_pairs_app (m : nat) (l1 l2 : list string) :
  consistent_pairs m l1 → consistent_pairs m l2 → consistent_pairs m (l1 ++ l2).
Proof.
  induction 1 as [|a b rest Hab Hrest IH]; intros H2; simpl; [done |].
  constructor; [done | by apply IH].
Qed.

Lemma consistent_field_pair (m : nat) (o : option bytes) :
  consistent_pairs m (field_pair m o).
Proof.
  destruct (field_pair_cases m o) as [[_ ->]|(data & _ & _ & ->)].
  - constructor.
  - unfold pair_of. constructor; [|constructor].
    apply consistent_pair_of. rewrite length_take. lia.
Qed.

(** ** Truncation *)

(** Claim C1.  Every byte field that [get_passwords] emits is cut to the
    limit of the revision first: the password part of the fingerprint is
    the join of one (length, hex) pair per non-empty attribute, the length
    field of the pair is [min(original length, limit)], the hex field
    holds the first [limit] bytes and so has twice that many characters;
    the limit is the table lookup of [SecurityRevision], which is 32 for
    revisions 2, 3 and 4 and 48 for revisions 5 and 6 and for any other
    value. *)
Theorem C1_fields_truncated (self : PdfHashExtractor) :
  let h := security_handler (self_pdf self) in
  let m := SecurityRevision.get_key_length (self_revision self) in
  m = max_field_length (self_revision self)
  ∧ get_passwords self =
      join "*" (flat_map (λ key,
        match truthy (getattr h key) with
        | Some data =>
            [str_len (Nat.min (List.length data) m); hex (take m data)]
        | None => []
        end) keys)
  ∧ ∀ data : bytes,
      List.length (take m data) = Nat.min (List.length data) m
      ∧ String.length (hex (take m data))
        = (2 * Nat.min (List.length data) m)%nat.
Proof.
  intros h m. split; [apply get_key_length_spec |]. split.
  - unfold get_passwords, password_items. fold h. fold m.
    rewrite get_passwords_loop. simpl. f_equal.
    unfold field_pair, pair_of.
    repeat (f_equal; try (destruct (truthy _); [by rewrite length_take_min | done])).
  - intros data. rewrite hex_length, length_take_min. done.
Qed.

(** ** Items of [passwords] never hold the delimiter *)

Lemma lower_hex_isnt_star (c : ascii) : is_lower_hex c = true → isnt "*" c = true.
Proof. char_cases c. Qed.

Lemma int_char_isnt_star (c : ascii) : is_int_char c = true → isnt "*" c = true.
Proof. char_cases c. Qed.

Lemma str_int_no_star (n : Z) : all_chars (isnt "*") (str_int n) = true.
Proof. eapply all_chars_weaken, str_int_chars. apply int_char_isnt_star. Qed.

Lemma hex_no_star (data : bytes) : all_chars (isnt "*") (hex data) = true.
Proof. eapply all_chars_weaken, hex_lower_hex. apply lower_hex_isnt_star. Qed.

Lemma hex_nonempty (data : bytes) : data ≠ [] → hex data ≠ "".
Proof. destruct data; done. Qed.

Lemma pair_of_plain (data : bytes) : data ≠ [] → Forall plain_item (pair_of data).
Proof.
  intros Hd. unfold pair_of. repeat constructor.
  - apply str_int_nonempty.
  - apply str_int_no_star.
  - by apply hex_nonempty.
  - apply hex_no_star.
Qed.

Lemma field_pair_plain (m : nat) (o : option bytes) :
  (0 < m)%nat → Forall plain_item (field_pair m o).
Proof.
  intros Hm. destruct (field_pair_cases m o) as [[_ ->]|(data & _ & Hd & ->)].
  - constructor.
  - apply pair_of_plain. destruct data; [done |]. destruct m; [lia | done].
Qed.

Lemma password_items_plain (h : SecurityHandler) (revision : PdfObject) :
  Forall plain_item (password_items h revision).
Proof.
  rewrite password_items_fields. simpl.
  pose proof (max_field_length_pos revision).
  repeat apply Forall_app_2; by apply field_pair_plain.
Qed.

Lemma join_cons_nonempty (sep x : string) (l : list string) :
  x ≠ "" → join sep (x :: l) ≠ "".
Proof. unfold join. destruct x, l; done. Qed.

(** Joining with ["*"] loses nothing on items that hold no ["*"]. *)
Lemma join_star_inj (l1 l2 : list string) :
  Forall plain_item l1 → Forall plain_item l2 →
  join "*" l1 = join "*" l2 → l1 = l2.
Proof.
  intros H1 H2 Heq.
  destruct l1 as [|x1 l1], l2 as [|x2 l2]; [done | | |].
  - inversion H2 as [|? ? [Hx _] _]; subst.
    symmetry in Heq. by apply join_cons_nonempty in Heq.
  - inversion H1 as [|? ? [Hx _] _]; subst.
    by apply join_cons_nonempty in Heq.
  - rewrite <- (split_on_join "*" (x1 :: l1)), <- (split_on_join "*" (x2 :: l2)).
    + by rewrite Heq.
    + done.
    + eapply Forall_impl; [exact H2 | by intros ? [_ ?]].
    + done.
    + eapply Forall_impl; [exact H1 | by intros ? [_ ?]].
Qed.

(** ** Construction and [parse] *)

Lemma app_assoc_str (a b c : string) : (a +:+ b) +:+ c = a +:+ (b +:+ c).
Proof.
  induction a as [|x a IH]; [done |].
  change (String x ((a +:+ b) +:+ c) = String x (a +:+ (b +:+ c))).
  by rewrite IH.
Qed.

Lemma parse_prefix (self : PdfHashExtractor) :
  parse self = fingerprint_prefix self +:+ get_passwords self.
Proof.
  unfold parse, parse_fields, fingerprint_prefix, join. cbn [String.concat].
  by rewrite !app_assoc_str.
Qed.

Lemma init_ok (pdf : PdfFileReader) (self : PdfHashExtractor) :
  init pdf = Ok self ↔
  ∃ d p r, encrypt_dict pdf = Some d
    ∧ d !! "/P" = Some p ∧ d !! "/R" = Some r
    ∧ self = {| self_pdf := pdf;
                self_algorithm := d !! "/V";
                self_length := default (NumberObject 40) (d !! "/Length");
                self_permissions := p;
                self_revision := r |}.
Proof.
  unfold init, getitem. split.
  - destruct (encrypt_dict pdf) as [d|]; [|done].
    case_decide; [done |].
    destruct (d !! "/P") as [p|] eqn:Hp; [|done].
    destruct (d !! "/R") as [r|] eqn:Hr; [|done].
    cbn. intros [= <-]. by exists d, p, r.
  - intros (d & p & r & -> & Hp & Hr & ->).
    case_decide as Hd; [subst d; by rewrite lookup_empty in Hp |].
    rewrite Hp, Hr. done.
Qed.

Lemma extract_ok (pdf : PdfFileReader) (s : string) :
  extract pdf = Ok s ↔ ∃ self, init pdf = Ok self ∧ s = parse self.
Proof.
  unfold extract. destruct (init pdf) as [self|e]; simpl.
  - split; [intros [= <-]; by exists self | by intros (? & [= <-] & ->)].
  - split; [done | by intros (? & ? & _)].
Qed.

Lemma init_with_handler (pdf : PdfFileReader) (h : SecurityHandler) :
  init (with_handler pdf h) =
  match init pdf with
  | Ok self => Ok (with_pdf self (with_handler pdf h))
  | Raise e => Raise e
  end.
Proof.
  unfold init, getitem. simpl.
  destruct (encrypt_dict pdf) as [d|]; [|done].
  case_decide; [done |].
  destruct (d !! "/P") as [p|]; [|done].
  destruct (d !! "/R") as [r|]; done.
Qed.

Lemma with_handler_same (pdf : PdfFileReader) :
  with_handler pdf (security_handler pdf) = pdf.
Proof. by destruct pdf. Qed.

Lemma field_pair_nil (m : nat) (o : option bytes) :
  field_pair m o = [] ↔ truthy o = None.
Proof.
  destruct (field_pair_cases m o) as [[Ht ->]|(data & Ht & _ & ->)];
    rewrite Ht; done.
Qed.

(** Two handlers on one document give the same fingerprint exactly when
    the loop of [get_passwords] collects the same items. *)
Lemma extract_with_handler_eq (pdf : PdfFileReader) (self : PdfHashExtractor)
    (h1 h2 : SecurityHandler) :
  init pdf = Ok self →
  encrypt_metadata h1 = encrypt_metadata h2 →
  extract (with_handler pdf h1) = extract (with_handler pdf h2)
  ↔ password_items h1 (self_revision self) = password_items h2 (self_revision self).
Proof.
  intros Hinit Hmeta. unfold extract. rewrite !init_with_handler, Hinit.
  unfold mbind, result_bind. rewrite !parse_prefix.
  unfold fingerprint_prefix, get_passwords. simpl. rewrite Hmeta.
  split.
  - intros [= Heq]. apply (inj (String.append _)) in Heq.
    apply join_star_inj in Heq; [done | apply password_items_plain ..].
  - by intros ->.
Qed.

(** ** Order of the byte fields *)

(** The fields of the password part, read back from the fingerprint. *)
Lemma split_get_passwords (self : PdfHashExtractor) :
  let items :=
    password_items (security_handler (self_pdf self)) (self_revision self) in
  split_on "*" (get_passwords self) = match items with [] => [""] | _ => items end.
Proof.
  intros items. unfold get_passwords. fold items.
  pose proof (password_items_plain (security_handler (self_pdf self))
                (self_revision self)) as Hplain. fold items in Hplain.
  destruct items as [|x l]; [done |].
  apply split_on_join; [done |].
  eapply Forall_impl; [exact Hplain | by intros ? [_ ?]].
Qed.

(** Claim C2, as worded, fails: on the revision-4 sample ([/O] 32 bytes
    of 0x11, [/U] 32 bytes of 0x22) the user data pair comes before the
    owner data pair, whereas the documented order puts the owner data
    first. *)
Lemma C2_documented_order_fails :
  ∃ self, init reader_r4 = Ok self
    ∧ get_passwords self =
        "32*2222222222222222222222222222222222222222222222222222222222222222*32*1111111111111111111111111111111111111111111111111111111111111111"
    ∧ documented_password_fields (security_handler reader_r4) (self_revision self) =
        "32*1111111111111111111111111111111111111111111111111111111111111111*32*2222222222222222222222222222222222222222222222222222222222222222"
    ∧ get_passwords self
      ≠ documented_password_fields (security_handler reader_r4) (self_revision self).
Proof.
  eexists. split; [reflexivity |]. split; [reflexivity |].
  split; [reflexivity |]. vm_compute. discriminate.
Qed.

(** Claim C2, amended.  The password part of the fingerprint is the
    ["*"]-join of the (decimal length, hex) pairs of the byte fields that
    are present, in the order user data, owner data, owner seed, user
    seed; a field that is absent contributes nothing, and splitting a
    non-empty password part at the delimiter gives these items back. *)
Theorem C2_password_fields_order (self : PdfHashExtractor) :
  let h := security_handler (self_pdf self) in
  let m := max_field_length (self_revision self) in
  let items := field_pair m (udata h) ++ field_pair m (odata h)
               ++ field_pair m (oeseed h) ++ field_pair m (ueseed h) in
  get_passwords self = join "*" items
  ∧ split_on "*" (get_passwords self) = match items with [] => [""] | _ => items end
  ∧ field_pair m None = []
  ∧ ∀ o, field_pair m o = []
         ∨ ∃ data, field_pair m o = [str_len (List.length data); hex data].
Proof.
  intros h m items.
  assert (password_items h (self_revision self) = items) as Hitems
    by by rewrite password_items_fields.
  split; [|split; [|split]].
  - unfold get_passwords. fold h. by rewrite Hitems.
  - rewrite split_get_passwords. simpl. fold h. by rewrite Hitems.
  - done.
  - intros o. destruct (field_pair_cases m o) as [[_ ->]|(data & _ & _ & ->)];
      [by left | right; by eexists].
Qed.

(** ** Field presence *)

(** Claim C3, as worded, fails: the revision-6 sample carries user and
    owner data on its handler and its fingerprint contains them. *)
Lemma C3_revision_gating_fails : ¬ presence_matches_revision reader_r6.
Proof.
  intros H. destruct (H dict_r6 6 eq_refl eq_refl) as [_ H6].
  specialize (H6 ltac:(lia)). vm_compute in H6. discriminate.
Qed.

(** Claim C3, amended.  Field presence follows the attributes of the
    security handler, whatever the revision: for a document that is
    extracted, the fingerprint is free of the seed fields exactly when
    [oeseed] and [ueseed] are absent or empty on the handler, and free of
    the legacy validation fields exactly when [udata] and [odata] are. *)
Theorem C3_presence_follows_handler (pdf : PdfFileReader) (self : PdfHashExtractor) :
  init pdf = Ok self →
  let h := security_handler pdf in
  (extract pdf = extract (without_seeds pdf)
     ↔ truthy (oeseed h) = None ∧ truthy (ueseed h) = None)
  ∧ (extract pdf = extract (without_legacy pdf)
     ↔ truthy (udata h) = None ∧ truthy (odata h) = None).
Proof.
  intros Hinit h.
  rewrite <- (with_handler_same pdf) at 1 3.
  unfold without_seeds, without_legacy. fold h.
  rewrite !(extract_with_handler_eq pdf self) by done.
  rewrite !password_items_fields. simpl.
  rewrite <- !(field_pair_nil (max_field_length (self_revision self))).
  set (m := max_field_length (self_revision self)).
  split; split.
  - intros Heq. do 2 apply app_inv_head in Heq. by apply app_eq_nil.
  - by intros [-> ->].
  - intros Heq.
    assert (List.length (field_pair m (udata h) ++ field_pair m (odata h)) = 0%nat)
      as Hlen.
    { apply (f_equal (@List.length _)) in Heq.
      rewrite !length_app in Heq. rewrite length_app. simpl in Heq. lia. }
    apply nil_length_inv in Hlen. by apply app_eq_nil.
  - by intros [-> ->].
Qed.

Lemma C3_presence_follows_handler_witness :
  init reader_r6 =
    Ok {| self_pdf := reader_r6; self_algorithm := Some (NumberObject 5);
          self_length := NumberObject 256;
          self_permissions := NumberObject (-3904);
          self_revision := NumberObject 6 |}
  ∧ (extract reader_r6 = extract (without_legacy reader_r6)
     ↔ truthy (udata (security_handler reader_r6)) = None
       ∧ truthy (odata (security_handler reader_r6)) = None).
Proof.
  split; [reflexivity |].
  apply (C3_presence_follows_handler reader_r6 _ eq_refl).
Defined.

(** ** Empty fields *)

Lemma str_len_zero (n : nat) : str_len n = "0" → n = 0%nat.
Proof.
  intros H. change "0" with (str_int 0) in H. apply str_int_inj in H. lia.
Qed.

Lemma pair_of_no_zero (data : bytes) :
  data ≠ [] → Forall (λ s, s ≠ "0") (pair_of data).
Proof.
  intros Hd. unfold pair_of. repeat constructor.
  - intros H%str_len_zero. by destruct data.
  - intros H. apply (f_equal String.length) in H.
    rewrite hex_length in H. simpl in H. lia.
Qed.

Lemma field_pair_no_zero (m : nat) (o : option bytes) :
  (0 < m)%nat → Forall (λ s, s ≠ "0") (field_pair m o).
Proof.
  intros Hm. destruct (field_pair_cases m o) as [[_ ->]|(data & _ & Hd & ->)].
  - constructor.
  - apply pair_of_no_zero. destruct data; [done |]. destruct m; [lia | done].
Qed.

Lemma field_pair_empty (m : nat) : field_pair m (Some []) = field_pair m None.
Proof. done. Qed.

Lemma password_items_setattr_empty (h : SecurityHandler) (key : string)
    (revision : PdfObject) :
  password_items (setattr h key (Some [])) revision
  = password_items (setattr h key None) revision.
Proof.
  rewrite !password_items_fields. simpl.
  repeat (destruct (String.eqb key _); rewrite ?field_pair_empty); done.
Qed.

(** Claim C9.  A byte field that is present on the handler but empty is
    treated like an absent one: setting any attribute to the empty byte
    string gives the same outcome of the extraction as setting it to
    [None], and no item of the password part is ["0"], so no ["0*"] pair
    is ever emitted. *)
Theorem C9_empty_like_absent (pdf : PdfFileReader) (key : string) :
  extract (with_handler pdf (setattr (security_handler pdf) key (Some [])))
  = extract (with_handler pdf (setattr (security_handler pdf) key None))
  ∧ ∀ h revision, Forall (λ s, s ≠ "0") (password_items h revision).
Proof.
  split.
  - unfold extract. rewrite !init_with_handler.
    destruct (init pdf) as [self|e]; [|done].
    unfold mbind, result_bind. f_equal. rewrite !parse_prefix. f_equal.
    unfold get_passwords. simpl. by rewrite password_items_setattr_empty.
  - intros h revision. rewrite password_items_fields. simpl.
    pose proof (max_field_length_pos revision).
    repeat apply Forall_app_2; by apply field_pair_no_zero.
Qed.

(** ** Consistency of lengths *)

(** Claim C10.  The items of the password part come in pairs; in each
    pair the length field is the decimal byte count of the truncated
    datum, the hex field has twice that many characters, and the count
    is at most the limit of the revision.  Likewise the length field of
    the document identifier reads back as half the number of characters
    of its hex field. *)
Theorem C10_pairs_consistent (self : PdfHashExtractor) :
  consistent_pairs (max_field_length (self_revision self))
    (password_items (security_handler (self_pdf self)) (self_revision self))
  ∧ get_passwords self =
      join "*" (password_items (security_handler (self_pdf self)) (self_revision self))
  ∧ ∃ len_field hex_field,
      parse_fields self !! 5%nat = Some len_field
      ∧ parse_fields self !! 6%nat = Some hex_field
      ∧ hex_field = hex (fst (document_id (self_pdf self)))
      ∧ int_of_str len_field = Some (Z.of_nat (String.length hex_field `div` 2)).
Proof.
  split; [|split; [done |]].
  - rewrite password_items_fields. simpl.
    repeat apply consistent_pairs_app; apply consistent_field_pair.
  - eexists _, _. repeat split.
    unfold str_len. rewrite int_of_str_int, hex_length.
    do 2 f_equal. by rewrite Nat.mul_comm, Nat.div_mul.
Qed.

(** ** Required entries of the encryption dictionary *)

Lemma extract_raise (pdf : PdfFileReader) (e : Exception) :
  extract pdf = Raise e ↔ init pdf = Raise e.
Proof. unfold extract. destruct (init pdf); cbn; split; congruence. Qed.



(** ** Documents that are not encrypted *)

(** Claim C5.  A document without encryption dictionary makes the
    constructor raise the error of a file that is not encrypted; [parse]
    is never reached, [extract_pdf] returns [None] and writes nothing. *)
Theorem C5_not_encrypted (pdf : PdfFileReader) :
  encrypt_dict pdf = None →
  init pdf = Raise not_encrypted
  ∧ extract pdf = Raise not_encrypted
  ∧ ∀ with_suffix write_fails pyhanko path fs,
      extract_pdf with_suffix write_fails pyhanko (Ok pdf) path fs = (None, fs).
Proof.
  intros Hd.
  assert (init pdf = Raise not_encrypted) as Hinit
    by (unfold init; by rewrite Hd).
  assert (extract pdf = Raise not_encrypted) as Hex by by apply extract_raise.
  repeat split; [done | done |].
  intros with_suffix write_fails pyhanko path fs. unfold extract_pdf.
  destruct pyhanko; [|done]. cbn. by rewrite Hex.
Qed.

Lemma C5_not_encrypted_witness :
  extract reader_plain = Raise (RuntimeError "File not encrypted")
  ∧ extract_pdf posix_with_suffix write_succeeds true (Ok reader_plain)
      "/tmp/plain.pdf" ∅ = (None, ∅).
Proof.
  destruct (C5_not_encrypted reader_plain eq_refl) as (_ & Hex & Hfs).
  split; [exact Hex | apply Hfs].
Defined.

(** ** Reading the fields of a fingerprint back *)

Lemma split_on_app_sep (sep : ascii) (a rest : string) :
  all_chars (isnt sep) a = true →
  split_on sep (a +:+ String sep "" +:+ rest) = a :: split_on sep rest.
Proof. exact (split_on_app sep a rest). Qed.

Lemma str_no_star (o : option PdfObject) :
  int_or_absent o → all_chars (isnt "*") (str o) = true.
Proof.
  destruct o as [[n|s|negative coefficient places]|];
    [intros _; apply str_int_no_star | done | done | done].
Qed.

Lemma str_bool_no_star (b : bool) : all_chars (isnt "*") (str_bool b) = true.
Proof. by destruct b. Qed.

Lemma split_parse (self : PdfHashExtractor) :
  int_or_absent (self_algorithm self) →
  int_or_absent (Some (self_revision self)) →
  int_or_absent (Some (self_length self)) →
  int_or_absent (Some (self_permissions self)) →
  split_on "*" (parse self) =
    ("$pdf$" +:+ str (self_algorithm self))
    :: str (Some (self_revision self))
    :: str (Some (self_length self))
    :: str (Some (self_permissions self))
    :: str_bool (encrypt_metadata (security_handler (self_pdf self)))
    :: str_len (List.length (fst (document_id (self_pdf self))))
    :: hex (fst (document_id (self_pdf self)))
    :: split_on "*" (get_passwords self).
Proof.
  intros HV HR HL HP.
  unfold parse, parse_fields, join. cbn [String.concat].
  rewrite split_on_app_sep
    by (rewrite all_chars_app; by rewrite (str_no_star _ HV)).
  rewrite !split_on_app_sep;
    auto using str_no_star, str_bool_no_star, str_int_no_star, hex_no_star.
  apply str_int_no_star.
Qed.

(** ** Permissions *)

(** Claim C6.  The permissions entry is carried through as the signed
    integer it is: the fourth field of the fingerprint is the decimal
    numeral of the value, which reads back as that value; for a negative
    value it is a minus sign followed by the digits of the absolute
    value.  The fourth field is the fourth item that [parse] joins and,
    when the entries before it are integers, the fourth piece of the
    fingerprint split at the delimiter. *)
Theorem C6_permissions_signed (pdf : PdfFileReader)
    (d : gmap string PdfObject) (p : Z) :
  encrypt_dict pdf = Some d →
  d !! "/P" = Some (NumberObject p) →
  is_Some (d !! "/R") →
  ∃ self s,
    init pdf = Ok self ∧ extract pdf = Ok s
    ∧ parse_fields self !! 3%nat = Some (str_int p)
    ∧ (int_or_absent (d !! "/V") → int_or_absent (d !! "/R") →
       int_or_absent (d !! "/Length") →
       split_on "*" s !! 3%nat = Some (str_int p))
    ∧ int_of_str (str_int p) = Some p
    ∧ (p < 0 → str_int p = String "-" (str_int (- p))
               ∧ all_chars is_digit (str_int (- p)) = true).
Proof.
  intros Hd Hp [r Hr].
  assert (init pdf =
    Ok {| self_pdf := pdf;
          self_algorithm := d !! "/V";
          self_length := default (NumberObject 40) (d !! "/Length");
          self_permissions := NumberObject p;
          self_revision := r |}) as Hinit
    by (apply init_ok; by exists d, (NumberObject p), r).
  eexists _, _. split; [exact Hinit |].
  split; [apply extract_ok; eexists; split; [exact Hinit | done] |].
  split; [done |]. split.
  - intros HV HR HL. rewrite Hr in HR.
    rewrite split_parse; simpl; [done | done | done | | done].
    by destruct (d !! "/Length") as [[]|].
  - split; [apply int_of_str_int |].
    intros Hneg. split; [by apply str_int_neg | apply str_int_nonneg; lia].
Qed.

Lemma C6_permissions_signed_witness :
  ∃ self s,
    init reader_r6 = Ok self ∧ extract reader_r6 = Ok s
    ∧ parse_fields self !! 3%nat = Some "-3904"
    ∧ split_on "*" s !! 3%nat = Some "-3904"
    ∧ int_of_str "-3904" = Some (-3904).
Proof.
  destruct (C6_permissions_signed reader_r6 dict_r6 (-3904) eq_refl eq_refl
              (ex_intro _ (NumberObject 6) eq_refl))
    as (self & s & Hinit & Hs & Hfield & Hsplit & Hread & _).
  exists self, s. repeat split; try done. by apply Hsplit.
Defined.

(** ** The serialized fingerprint *)

Lemma last_char_app (a b : string) :
  b ≠ "" → last_char (a +:+ b) = last_char b.
Proof.
  intros Hb. induction a as [|c a IH]; [done |].
  change (last_char (String c (a +:+ b)) = last_char b).
  rewrite <- IH. simpl. destruct (a +:+ b) eqn:Hab; [|done].
  destruct a; [done | discriminate].
Qed.

Lemma app_nonempty_r (a b : string) : b ≠ "" → a +:+ b ≠ "".
Proof. intros Hb. destruct a; [done | discriminate]. Qed.

Lemma star_app_nonempty (rest : string) : "*" +:+ rest ≠ "".
Proof. discriminate. Qed.

Lemma last_char_star (rest : string) :
  last_char ("*" +:+ rest)
  = match rest with EmptyString => Some "*"%char | _ => last_char rest end.
Proof. by destruct rest. Qed.

Lemma last_char_all (P : ascii → bool) (s : string) :
  all_chars P s = true → s ≠ "" → ∃ c, last_char s = Some c ∧ P c = true.
Proof.
  induction s as [|c s IH]; [done |]. simpl.
  intros [Hc Hs]%andb_true_iff _. destruct s as [|c' s]; [by exists c |].
  by apply IH.
Qed.

Lemma join_snoc (sep : string) (l : list string) (x : string) :
  l ≠ [] → join sep (l ++ [x]) = join sep l +:+ sep +:+ x.
Proof.
  unfold join. induction l as [|y l IH]; [done |]. intros _.
  destruct l as [|z l]; [done |].
  change (y +:+ sep +:+ String.concat sep ((z :: l) ++ [x])
          = (y +:+ sep +:+ String.concat sep (z :: l)) +:+ sep +:+ x).
  rewrite IH by done. by rewrite !app_assoc_str.
Qed.

Lemma last_char_join_snoc (l : list string) (x : string) :
  x ≠ "" → last_char (join "*" (l ++ [x])) = last_char x.
Proof.
  intros Hx. destruct l as [|y l]; [done |].
  rewrite join_snoc by done. rewrite <- app_assoc_str.
  by apply last_char_app.
Qed.

(** The last item of a non-empty [passwords] is the hex of a datum. *)
Lemma password_items_last (h : SecurityHandler) (revision : PdfObject) :
  password_items h revision ≠ [] →
  ∃ l data, data ≠ [] ∧ password_items h revision = l ++ [hex data].
Proof.
  rewrite password_items_fields. simpl.
  pose proof (max_field_length_pos revision) as Hm.
  set (m := max_field_length revision) in *.
  assert (∀ o, field_pair m o = []
               ∨ ∃ data, data ≠ [] ∧
                   field_pair m o = [str_len (List.length data)] ++ [hex data])
    as Hcases.
  { intros o. destruct (field_pair_cases m o) as [[_ ->]|(data & _ & Hd & ->)];
      [by left | right]. exists (take m data). split; [|done].
    destruct data; [done |]. destruct m; [lia | done]. }
  destruct (Hcases (ueseed h)) as [->|(d4 & ? & ->)];
    [|intros _; eexists _, d4; split; [done |]; by rewrite !app_assoc].
  destruct (Hcases (oeseed h)) as [->|(d3 & ? & ->)];
    [|intros _; eexists _, d3; split; [done |];
      rewrite app_nil_r; by rewrite !app_assoc].
  destruct (Hcases (odata h)) as [->|(d2 & ? & ->)];
    [|intros _; eexists _, d2; split; [done |];
      rewrite !app_nil_r; by rewrite !app_assoc].
  destruct (Hcases (udata h)) as [->|(d1 & ? & ->)]; [done |].
  intros _. eexists _, d1. split; [done |]. by rewrite !app_nil_r.
Qed.

Lemma fingerprint_char_cases (c : ascii) :
  (is_lower_hex c = true → is_fingerprint_char c = true)
  ∧ (is_int_char c = true → is_fingerprint_char c = true)
  ∧ (is_fingerprint_char c = true → isnt newline c = true).
Proof. char_cases c. Qed.

Lemma str_int_fingerprint (n : Z) :
  all_chars is_fingerprint_char (str_int n) = true.
Proof.
  eapply all_chars_weaken, str_int_chars. intros c. apply fingerprint_char_cases.
Qed.

Lemma hex_fingerprint (data : bytes) :
  all_chars is_fingerprint_char (hex data) = true.
Proof.
  eapply all_chars_weaken, hex_lower_hex. intros c. apply fingerprint_char_cases.
Qed.

Lemma password_items_fingerprint (h : SecurityHandler) (revision : PdfObject) :
  Forall (λ s, all_chars is_fingerprint_char s = true) (password_items h revision).
Proof.
  rewrite password_items_fields. simpl.
  repeat apply Forall_app_2;
    match goal with |- Forall _ (field_pair ?m ?o) =>
      destruct (field_pair_cases m o) as [[_ ->]|(data & _ & _ & ->)];
        [constructor
        | unfold pair_of; repeat constructor;
          [apply str_int_fingerprint | apply hex_fingerprint]]
    end.
Qed.

Lemma password_items_nonempty (h : SecurityHandler) (revision : PdfObject) :
  carries_user_data h → password_items h revision ≠ [].
Proof.
  intros [data Hdata]. rewrite password_items_fields. cbv zeta.
  unfold field_pair at 1. by rewrite Hdata.
Qed.

(** Claim C8, as worded, fails for an entry that is a real number: on
    the revision-4 sample with [/R] written [4.0] the extraction
    succeeds, and the revision field of the fingerprint is ["4.0"],
    which is not the decimal numeral of any integer. *)
Lemma C8_real_number_entry :
  extract reader_real_revision =
    Ok "$pdf$2*4.0*128*-4*0*4*deadbeef*32*2222222222222222222222222222222222222222222222222222222222222222*32*1111111111111111111111111111111111111111111111111111111111111111"
  ∧ (∀ s, extract reader_real_revision = Ok s →
       split_on "*" s !! 1%nat = Some "4.0")
  ∧ int_of_str "4.0" = None
  ∧ ∀ n, str_int n ≠ "4.0".
Proof.
  split; [reflexivity |]. split; [by intros s [= <-] |].
  split; [reflexivity |].
  intros n Heq. pose proof (str_int_chars n) as Hchars.
  rewrite Heq in Hchars. discriminate.
Qed.

(** Claim C8, amended.  For a document whose entries [/V], [/R],
    [/Length] and [/P] are integers, the fingerprint is the prefix
    ["$pdf$"], then the algorithm version, the revision, the key length
    (40 when absent), the permissions, the metadata flag as 0 or 1, the
    length of the document identifier, its hex and the password part,
    separated by ["*"]; integers are decimal numerals, byte strings are
    lowercase hex without separators, and there is no newline.  The
    handler of a reader that pyhanko returns holds user data, so the
    password part is not empty and the fingerprint ends with a hex
    digit, not with the delimiter. *)
Theorem C8_fingerprint_format (pdf : PdfFileReader)
    (d : gmap string PdfObject) (v r l p : Z) :
  encrypt_dict pdf = Some d →
  d !! "/V" = Some (NumberObject v) →
  d !! "/R" = Some (NumberObject r) →
  default (NumberObject 40) (d !! "/Length") = NumberObject l →
  d !! "/P" = Some (NumberObject p) →
  carries_user_data (security_handler pdf) →
  let h := security_handler pdf in
  let id := fst (document_id pdf) in
  let items := password_items h (NumberObject r) in
  ∃ s, extract pdf = Ok s
    ∧ s = "$pdf$" +:+ str_int v +:+ "*" +:+ str_int r +:+ "*" +:+ str_int l
          +:+ "*" +:+ str_int p +:+ "*" +:+ str_bool (encrypt_metadata h)
          +:+ "*" +:+ str_len (List.length id) +:+ "*" +:+ hex id
          +:+ "*" +:+ join "*" items
    ∧ (str_bool (encrypt_metadata h) = "0" ∨ str_bool (encrypt_metadata h) = "1")
    ∧ String.length (hex id) = (2 * List.length id)%nat
    ∧ all_chars is_lower_hex (hex id) = true
    ∧ all_chars is_fingerprint_char s = true
    ∧ all_chars (isnt newline) s = true
    ∧ items ≠ []
    ∧ last_char s ≠ Some "*"%char
    ∧ ∃ c, last_char s = Some c ∧ is_lower_hex c = true.
Proof.
  intros Hd HV HR HL HP Hdata h id items.
  assert (init pdf =
    Ok {| self_pdf := pdf;
          self_algorithm := d !! "/V";
          self_length := default (NumberObject 40) (d !! "/Length");
          self_permissions := NumberObject p;
          self_revision := NumberObject r |}) as Hinit
    by (apply init_ok; by exists d, (NumberObject p), (NumberObject r)).
  eexists. split; [apply extract_ok; eexists; split; [exact Hinit | done] |].
  match goal with |- parse ?self = _ ∧ _ => set (fp := parse self) end.
  assert (fp = "$pdf$" +:+ str_int v +:+ "*" +:+ str_int r +:+ "*" +:+ str_int l
             +:+ "*" +:+ str_int p +:+ "*" +:+ str_bool (encrypt_metadata h)
             +:+ "*" +:+ str_len (List.length id) +:+ "*" +:+ hex id
             +:+ "*" +:+ join "*" items) as ->.
  { unfold fp. rewrite parse_prefix.
    unfold fingerprint_prefix, get_passwords. simpl.
    rewrite HV, HL. simpl. by rewrite !app_assoc_str. }
  assert (all_chars is_fingerprint_char
            ("$pdf$" +:+ str_int v +:+ "*" +:+ str_int r +:+ "*" +:+ str_int l
             +:+ "*" +:+ str_int p +:+ "*" +:+ str_bool (encrypt_metadata h)
             +:+ "*" +:+ str_len (List.length id) +:+ "*" +:+ hex id
             +:+ "*" +:+ join "*" items) = true) as Hchars.
  { unfold str_len.
    rewrite !all_chars_app, !str_int_fingerprint, hex_fingerprint.
    rewrite all_chars_join;
      [by destruct (encrypt_metadata h) | done
      | apply password_items_fingerprint]. }
  split; [done |].
  split; [destruct (encrypt_metadata h); auto |].
  split; [apply hex_length |].
  split; [apply hex_lower_hex |].
  split; [exact Hchars |].
  split; [eapply all_chars_weaken, Hchars; intros c; apply fingerprint_char_cases |].
  assert (last_char
            ("$pdf$" +:+ str_int v +:+ "*" +:+ str_int r +:+ "*" +:+ str_int l
             +:+ "*" +:+ str_int p +:+ "*" +:+ str_bool (encrypt_metadata h)
             +:+ "*" +:+ str_len (List.length id) +:+ "*" +:+ hex id
             +:+ "*" +:+ join "*" items)
          = last_char ("*" +:+ join "*" items)) as ->.
  { repeat (rewrite last_char_app
              by (repeat (first [apply star_app_nonempty | apply app_nonempty_r]))).
    done. }
  rewrite last_char_star.
  pose proof (password_items_nonempty h (NumberObject r) Hdata) as Hne.
  split; [exact Hne |].
  assert (∃ c, match join "*" items with
               | EmptyString => Some "*"%char
               | String _ _ => last_char (join "*" items)
               end = Some c ∧ is_lower_hex c = true) as (c & Hc & Hhex).
  { destruct (password_items_last h (NumberObject r) Hne)
      as (pre & data & Hnonempty & Hitems).
    fold items in Hitems. rewrite Hitems.
    pose proof (last_char_join_snoc pre (hex data) (hex_nonempty data Hnonempty))
      as Hlast.
    destruct (last_char_all is_lower_hex (hex data)) as (c & Hc & Hhex);
      [apply hex_lower_hex | by apply hex_nonempty |].
    exists c. split; [|done]. rewrite <- Hc, <- Hlast.
    destruct (join "*" (pre ++ [hex data])); [|done].
    simpl in Hlast. congruence. }
  split; [|by exists c].
  rewrite Hc. intros [= ->]. discriminate.
Qed.

Lemma C8_fingerprint_format_witness :
  ∃ s, extract reader_r4 = Ok s
    ∧ s = "$pdf$2*4*128*-4*0*4*deadbeef*32*2222222222222222222222222222222222222222222222222222222222222222*32*1111111111111111111111111111111111111111111111111111111111111111"
    ∧ all_chars (isnt newline) s = true
    ∧ last_char s ≠ Some "*"%char.
Proof.
  destruct (C8_fingerprint_format reader_r4 dict_r4 2 4 128 (-4)
              eq_refl eq_refl eq_refl eq_refl eq_refl
              (ex_intro _ (repeat Byte.x22 32) eq_refl))
    as (s & Hs & Heq & _ & _ & _ & _ & Hnl & _ & Hlast & _).
  exists s. split; [exact Hs |]. split; [exact Heq |].
  split; [exact Hnl | exact Hlast].
Defined.

(** * The command-line tool *)

(** ** Substrings *)

Lemma prefix_app (a s : string) :
  String.prefix a s = true ↔ ∃ post, s = a +:+ post.
Proof.
  revert s. induction a as [|c a IH]; intros s.
  - split; [intros _; by exists s | by destruct s].
  - destruct s as [|c' s]; simpl.
    + split; [done | by intros [post [=]]].
    + destruct (ascii_dec c c') as [<-|Hne].
      * rewrite IH. split.
        -- intros [post ->]. by exists post.
        -- intros [post [= ->]]. by exists post.
      * split; [done | intros [post [= ? _]]; done].
Qed.

Lemma contains_app (sub s : string) :
  contains sub s = true ↔ ∃ pre post, s = pre +:+ sub +:+ post.
Proof.
  induction s as [|c s IH]; cbn [contains].
  - rewrite orb_false_r, prefix_app. split.
    + intros [post ->]. by exists "", post.
    + intros (pre & post & H). exists post. by destruct pre.
  - rewrite orb_true_iff, prefix_app, IH. split.
    + intros [[post ->]|(pre & post & ->)].
      * by exists "", post.
      * by exists (String c pre), post.
    + intros (pre & post & H). destruct pre as [|c' pre].
      * left. by exists post.
      * right. injection H as -> ->. by exists pre, post.
Qed.

Lemma endswith_app (s suffix : string) :
  endswith s suffix = true ↔ ∃ pre, s = pre +:+ suffix.
Proof.
  induction s as [|c s IH]; cbn [endswith].
  - rewrite orb_false_r, String.eqb_eq. split.
    + intros <-. by exists "".
    + intros [pre H]. by destruct pre.
  - rewrite orb_true_iff, String.eqb_eq, IH. split.
    + intros [<-|[pre ->]]; [by exists "" | by exists (String c pre)].
    + intros [pre H]. destruct pre as [|c' pre]; [by left |].
      right. injection H as -> ->. by exists pre.
Qed.

(** ** Sequencing *)

Lemma bind_Returns {A B : Type} (m : M A) (k : A → M B) (w w1 : World) (a : A) :
  m w = (Returns a, w1) → (m ≫= k) w = k a w1.
Proof. intros H. unfold mbind, M_bind. by rewrite H. Qed.

Lemma bind_Raises {A B : Type} (m : M A) (k : A → M B) (w w1 : World) (e : Raised) :
  m w = (Raises e, w1) → (m ≫= k) w = (Raises e, w1).
Proof. intros H. unfold mbind, M_bind. by rewrite H. Qed.

Lemma bind_inv {A B : Type} (m : M A) (k : A → M B) (w w2 : World) (b : B) :
  (m ≫= k) w = (Returns b, w2) →
  ∃ a w1, m w = (Returns a, w1) ∧ k a w1 = (Returns b, w2).
Proof.
  unfold mbind, M_bind. destruct (m w) as [[a|e] w1]; [|done].
  intros H. by exists a, w1.
Qed.

Lemma quiet_ret {A : Type} (a : A) : quiet (mret a).
Proof. intros w. by exists a, w. Qed.

Lemma quiet_bind {A B : Type} (m : M A) (k : A → M B) :
  quiet m → (∀ a, quiet (k a)) → quiet (m ≫= k).
Proof.
  intros Hm Hk w. destruct (Hm w) as (a & w1 & Hmw & Hp1).
  destruct (Hk a w1) as (b & w2 & Hkw & Hp2).
  exists b, w2. rewrite (bind_Returns _ _ _ _ _ Hmw). split; [done | congruence].
Qed.

Lemma quiet_tame {A : Type} (m : M A) : quiet m → tame m.
Proof.
  intros Hm w o w' H. destruct (Hm w) as (a & w1 & Hmw & Hp).
  rewrite Hmw in H. injection H as <- <-. split; [done | by intros e [=]].
Qed.

Lemma tame_bind {A B : Type} (m : M A) (k : A → M B) :
  tame m → (∀ a, tame (k a)) → tame (m ≫= k).
Proof.
  intros Hm Hk w o w'. unfold mbind, M_bind.
  destruct (m w) as [[a|e] w1] eqn:Hmw.
  - intros Hkw. destruct (Hm _ _ _ Hmw) as [Hp1 _].
    destruct (Hk _ _ _ _ Hkw) as [Hp2 He]. split; [congruence | done].
  - intros [= <- <-]. destruct (Hm _ _ _ Hmw) as [Hp1 He].
    split; [done |]. intros e' [= <-]. by apply He.
Qed.

Lemma quiet_except {A : Type} (body handler : M A) :
  tame body → quiet handler → quiet (except_Exception body handler).
Proof.
  intros Hb Hh w. unfold except_Exception.
  destruct (body w) as [[a|e] w1] eqn:Hbw;
    destruct (Hb _ _ _ Hbw) as [Hp He].
  - by exists a, w1.
  - rewrite (He e eq_refl). destruct (Hh w1) as (a & w2 & Hhw & Hp2).
    exists a, w2. split; [done | congruence].
Qed.

(** ** The utilities *)

Lemma tame_subprocess_run (env : Env) (cmd : list string) (check : bool) :
  tame (subprocess_run env cmd check).
Proof.
  intros w o w'. unfold subprocess_run.
  destruct (env_spawn env cmd (files w)) as [[]|[[returncode out] fs]].
  - intros [= <- <-]. split; [done | by intros e [= <-]].
  - intros [= <- <-]. split; [done | by intros e [= <-]].
  - destruct (check && negb (returncode =? 0)); intros [= <- <-];
      (split; [done |]); intros e [=]; by subst.
Qed.

Lemma tame_run_quiet (env : Env) (cmd : list string) (check : bool) :
  tame (run_quiet env cmd check).
Proof.
  intros w o w'. unfold run_quiet.
  destruct (subprocess_run env cmd check w) as [[[returncode out]|e] w1] eqn:Hrun;
    destruct (tame_subprocess_run env cmd check _ _ _ Hrun) as [Hp He].
  - intros [= <- <-]. split; [done | by intros e [=]].
  - specialize (He e eq_refl).
    destruct e; intros [= <- <-]; (split; [done |]); intros e' [=]; by subst.
Qed.

Lemma quiet_run_capture (env : Env) (cmd : list string) :
  quiet (run_capture env cmd).
Proof.
  apply quiet_except; [|apply quiet_ret].
  apply tame_bind; [apply tame_subprocess_run |].
  intros [returncode [|c rest]]; [apply quiet_tame, quiet_ret |].
  destruct (returncode =? 0); apply quiet_tame, quiet_ret.
Qed.

Lemma quiet_which (env : Env) (prog : string) : quiet (which env prog).
Proof. intros w. by eexists _, w. Qed.

Lemma quiet_path_exists (p : string) : quiet (path_exists p).
Proof. intros w. by eexists _, w. Qed.

Lemma tame_write_bytes (env : Env) (p data : string) :
  tame (write_bytes env p data).
Proof.
  intros w o w'. unfold write_bytes.
  destruct (env_write_fails env (files w) p data); intros [= <- <-];
    (split; [done |]); intros e [=]; by subst.
Qed.

Lemma tame_chmod_owner_execute (env : Env) (p : string) :
  tame (chmod_owner_execute env p).
Proof.
  intros w o w'. unfold chmod_owner_execute.
  destruct (env_chmod_fails env (files w) p); intros [= <- <-];
    (split; [done |]); intros e [=]; by subst.
Qed.

Lemma quiet_download_raw (env : Env) (url dest : string) :
  quiet (download_raw env url dest).
Proof.
  unfold download_raw.
  destruct (env_urlopen env url) as [[status data]|]; [|apply quiet_ret].
  destruct (negb (status =? 200)); [apply quiet_ret |].
  apply quiet_except; [|apply quiet_ret].
  apply tame_bind; [apply tame_write_bytes |]. intros _.
  apply tame_bind; [apply tame_chmod_owner_execute |]. intros _.
  apply quiet_tame, quiet_ret.
Qed.

Lemma quiet_careful (env : Env) (path : Path) {A : Type} (m : M A) :
  quiet m → careful env path m.
Proof.
  intros Hm w o w' H. destruct (Hm w) as (a & w1 & Hmw & Hp).
  rewrite Hmw in H. injection H as <- <-. split; [done | by intros e [=]].
Qed.

Lemma careful_bind (env : Env) (path : Path) {A B : Type} (m : M A)
    (k : A → M B) :
  careful env path m → (∀ a, careful env path (k a)) →
  careful env path (m ≫= k).
Proof.
  intros Hm Hk w o w'. unfold mbind, M_bind.
  destruct (m w) as [[a|e] w1] eqn:Hmw.
  - intros Hkw. destruct (Hm _ _ _ Hmw) as [Hp1 _].
    destruct (Hk _ _ _ _ Hkw) as [Hp2 He]. split; [congruence | done].
  - intros [= <- <-]. destruct (Hm _ _ _ Hmw) as [Hp1 He].
    split; [done |]. intros e' [= <-]. by apply He.
Qed.

Lemma careful_write_hashfile (env : Env) (path : Path) (data : string) :
  careful env path (write_hashfile env path data).
Proof.
  intros w o w'. unfold write_hashfile, write_to_unified_hashfile.
  destruct (env_write_fails env (files w) _ data) as [fs|] eqn:Hwrite;
    intros [= <- <-]; (split; [done |]); intros e [=]. subst e.
  split; [done |]. exists (files w), data. rewrite Hwrite. by eexists.
Qed.

Lemma quiet_import_pyhanko (env : Env) : quiet (import_pyhanko env).
Proof. intros w. by eexists _, w. Qed.

Lemma quiet_ensure_pyhanko (env : Env) : quiet (ensure_pyhanko env).
Proof.
  apply quiet_bind; [apply quiet_import_pyhanko |].
  intros [|]; [apply quiet_ret |].
  apply quiet_except; [|apply quiet_ret].
  apply tame_bind; [apply tame_subprocess_run |].
  intros _. apply quiet_tame, quiet_import_pyhanko.
Qed.

Lemma quiet_extract_pdf_with (env : Env) (path : Path) (pyhanko : bool) :
  quiet (extract_pdf_with env path pyhanko).
Proof.
  intros w. unfold extract_pdf_with.
  destruct (extract_pdf _ _ _ _ _ _) as [out fs]. by eexists _, _.
Qed.

(** ** Type detection *)

Lemma detect_by_name_range (path : Path) (t : string) :
  detect_by_name path = Some t →
  t ∈ ["pdf"; "office"; "zip"; "rar"; "7z"; "pcap"; "ntds"].
Proof.
  unfold detect_by_name.
  repeat (match goal with |- context [if ?b then _ else _] => destruct b end);
    intros [= <-]; set_solver.
Qed.

Lemma detect_by_mime_range (mime : string) (t : string) :
  detect_by_mime mime = Some t → t ∈ ["pdf"; "pcap"; "zip"; "rar"; "7z"].
Proof.
  unfold detect_by_mime.
  repeat (match goal with |- context [if ?b then _ else _] => destruct b end);
    intros [= <-]; set_solver.
Qed.

Lemma quiet_detect_type (env : Env) (path : Path) : quiet (detect_type env path).
Proof.
  unfold detect_type. destruct (detect_by_name path); [apply quiet_ret |].
  apply quiet_bind; [apply quiet_which |]. intros f.
  destruct (truthy_str f); [|apply quiet_ret].
  apply quiet_except; [|apply quiet_ret].
  apply tame_bind; [apply tame_subprocess_run |]. intros out.
  destruct (env_decode env out.2); apply quiet_tame, quiet_ret.
Qed.

Lemma contains_x_rar (mime : string) :
  contains "x-rar" mime = true → contains "rar" mime = true.
Proof.
  rewrite !contains_app. intros (pre & post & ->).
  exists (pre +:+ "x-"), post. by rewrite !app_assoc_str.
Qed.

Lemma type_names_by_name (t : string) :
  t ∈ ["pdf"; "office"; "zip"; "rar"; "7z"; "pcap"; "ntds"] → t ∈ type_names.
Proof. unfold type_names. rewrite !elem_of_cons. tauto. Qed.

Lemma type_names_by_mime (t : string) :
  t ∈ ["pdf"; "pcap"; "zip"; "rar"; "7z"; "unknown"] →
  t ∈ type_names ∧ t ≠ "office" ∧ t ≠ "ntds".
Proof.
  unfold type_names. rewrite !elem_of_cons, !elem_of_nil.
  intros H. split; [tauto |]. split; intros ->;
    repeat (destruct H as [H|H]; [discriminate |]); done.
Qed.

Lemma unknown_by_mime : "unknown" ∈ ["pdf"; "pcap"; "zip"; "rar"; "7z"; "unknown"].
Proof. rewrite !elem_of_cons. tauto. Qed.

(** [detect_type] always returns one of its eight type names, raises
    nothing and prints nothing.  A known extension or the name decides
    without looking at the file: the state is left as it was.  When the
    name decides nothing, the MIME type can only give [pdf], [pcap],
    [zip], [rar], [7z] or [unknown], never [office] or [ntds]. *)
Theorem detect_type_range (env : Env) (path : Path) (w : World) :
  ∃ t w', detect_type env path w = (Returns t, w')
    ∧ t ∈ type_names
    ∧ printed w' = printed w
    ∧ (is_Some (detect_by_name path) → w' = w)
    ∧ (detect_by_name path = None → t ≠ "office" ∧ t ≠ "ntds").
Proof.
  destruct (quiet_detect_type env path w) as (t & w' & Hrun & Hp).
  exists t, w'. split; [done |]. revert Hrun. unfold detect_type.
  destruct (detect_by_name path) as [t0|] eqn:Hname.
  - intros [= <- <-]. apply detect_by_name_range, type_names_by_name in Hname.
    split; [done |]. split; [done |]. split; done.
  - assert (t ∈ ["pdf"; "pcap"; "zip"; "rar"; "7z"; "unknown"] →
            t ∈ type_names ∧ printed w' = printed w
            ∧ (is_Some (@None string) → w' = w)
            ∧ (@None string = None → t ≠ "office" ∧ t ≠ "ntds")) as Hdone.
    { intros (Ht & Ho & Hn)%type_names_by_mime.
      split; [done |]. split; [done |]. split; [by intros [? [=]] | done]. }
    unfold mbind, M_bind, which, except_Exception.
    destruct (truthy_str _) as [f|];
      [|intros [= <- <-]; apply Hdone, unknown_by_mime].
    destruct (subprocess_run env _ false w) as [[out|e] w1];
      [|destruct (is_Exception e); intros [= <- <-]; apply Hdone, unknown_by_mime].
    destruct (env_decode env out.2) as [text|];
      [|intros [= <- <-]; apply Hdone, unknown_by_mime].
    destruct (detect_by_mime (lower (strip text))) as [t1|] eqn:Hmime;
      intros [= <- <-]; apply Hdone; [|apply unknown_by_mime].
    apply detect_by_mime_range in Hmime. revert Hmime.
    rewrite !elem_of_cons. tauto.
Qed.

(** The extension decides before the content, whatever its letter case:
    a path whose lowercased suffix is a dot and one of the thirteen known
    extensions gets the type of that extension, for every environment,
    without any process being run; a path named like [ntds.dit] gets
    [ntds]. *)
Theorem detect_type_by_extension (env : Env) (path : Path) (w : World) :
  (∀ e t, (e, t) ∈ extension_types →
     lower (path_suffix path) = "." +:+ e →
     detect_type env path w = (Returns t, w))
  ∧ (lower (path_suffix path) = ".dit" →
     endswith (lower (path_name path)) "ntds.dit" = true →
     detect_type env path w = (Returns "ntds", w)).
Proof.
  split.
  - intros e t Hin Hsuffix. unfold detect_type, detect_by_name.
    rewrite Hsuffix. unfold extension_types in Hin.
    repeat (apply elem_of_cons in Hin as [[= -> ->]|Hin]; [done |]).
    by apply elem_of_nil in Hin.
  - intros Hsuffix Hname. unfold detect_type, detect_by_name.
    rewrite Hsuffix, Hname. done.
Qed.

Lemma detect_type_by_extension_witness :
  detect_type bare_env (path_of "/tmp/Report.PDF" "Report.PDF" ".PDF") empty_world
    = (Returns "pdf", empty_world)
  ∧ detect_type bare_env (path_of "/tmp/NTDS.dit" "NTDS.dit" ".dit") empty_world
    = (Returns "ntds", empty_world).
Proof.
  split.
  - apply (proj1 (detect_type_by_extension bare_env
             (path_of "/tmp/Report.PDF" "Report.PDF" ".PDF") empty_world)
             "pdf" "pdf"); [apply list_elem_of_here | reflexivity].
  - apply (proj2 (detect_type_by_extension bare_env
             (path_of "/tmp/NTDS.dit" "NTDS.dit" ".dit") empty_world));
      reflexivity.
Defined.

(** In the MIME tests the second test of the [rar] line never decides:
    the type is [rar] exactly when the MIME type holds none of [pdf],
    [pcap], [zip] and holds [rar]. *)
Theorem detect_by_mime_rar (mime : string) :
  detect_by_mime mime = Some "rar"
  ↔ contains "pdf" mime = false ∧ contains "pcap" mime = false
    ∧ contains "zip" mime = false ∧ contains "rar" mime = true.
Proof.
  unfold detect_by_mime.
  destruct (contains "pdf" mime); [split; [done | by intros (? & _)] |].
  destruct (contains "pcap" mime); [split; [done | by intros (_ & ? & _)] |].
  destruct (contains "zip" mime); [split; [done | by intros (_ & _ & ? & _)] |].
  destruct (contains "rar" mime) eqn:Hrar; [done |].
  destruct (contains "x-rar" mime) eqn:Hx.
  - apply contains_x_rar in Hx. congruence.
  - simpl. destruct (contains "7z" mime); split; (done || by intros (_ & _ & _ & ?)).
Qed.

(** ** Running a tool and keeping its output *)

Lemma run_quiet_unchecked (env : Env) (cmd : list string) (w : World) :
  run_quiet env cmd false w =
  match env_spawn env cmd (files w) with
  | inl exe_not_found => (Returns 127, w)
  | inl spawn_failed => (Raises OSError, w)
  | inr (returncode, _, fs) => (Returns returncode, with_files w fs)
  end.
Proof.
  unfold run_quiet, subprocess_run.
  by destruct (env_spawn env cmd (files w)) as [[]|[[returncode out] fs]].
Qed.

Lemma run_capture_unfold (env : Env) (cmd : list string) (w : World) :
  run_capture env cmd w =
  match env_spawn env cmd (files w) with
  | inl _ => (Returns None, w)
  | inr (returncode, out, fs) =>
      (Returns (if returncode =? 0 then truthy_str (Some out) else None),
       with_files w fs)
  end.
Proof.
  unfold run_capture, except_Exception, mbind, M_bind, subprocess_run.
  destruct (env_spawn env cmd (files w)) as [[]|[[returncode out] fs]];
    [done | done |]. simpl.
  destruct out as [|c rest]; [by destruct (returncode =? 0) |].
  by destruct (returncode =? 0).
Qed.

(** [run_capture] never raises and prints nothing.  It returns an output
    exactly when the process could be started, ended with return code 0
    and wrote something; a process that cannot be started leaves the
    state as it was. *)
Theorem run_capture_result (env : Env) (cmd : list string) (w : World) :
  ∃ r w', run_capture env cmd w = (Returns r, w')
    ∧ printed w' = printed w
    ∧ (∀ out, r = Some out ↔
         out ≠ "" ∧ ∃ fs, env_spawn env cmd (files w) = inr (0, out, fs))
    ∧ match env_spawn env cmd (files w) with
      | inl _ => w' = w ∧ r = None
      | inr (_, _, fs) => w' = with_files w fs
      end.
Proof.
  rewrite run_capture_unfold.
  destruct (env_spawn env cmd (files w)) as [err|[[returncode out] fs]].
  - eexists None, w. split_and!; try done.
    intros out. split; [done | by intros (_ & ? & ?)].
  - eexists _, _. split; [done |]. split; [done |]. split; [|done].
    intros data. destruct (returncode =? 0) eqn:Hrc.
    + apply Z.eqb_eq in Hrc as ->. destruct out as [|c rest]; simpl.
      * split; [done | by intros (? & ? & [= <- _])].
      * split; [intros [= <-]; split; [done | by eexists] |].
        by intros (_ & ? & [= <- _]).
    + apply Z.eqb_neq in Hrc. split; [done |]. by intros (_ & ? & [= ? _]).
Qed.

(** Running a command and writing what it prints to the [.hash] sibling
    of the source, as [extract_with_john_tool] and [extract_7z] do. *)
Lemma capture_to_hashfile (env : Env) (cmd : list string) (path : Path) (w : World) :
  let out := env_with_suffix env (path_str path) ".hash" in
  (run_capture env cmd ≫= λ res,
     match truthy_str res with
     | Some data => write_hashfile env path data ≫= λ out, mret (Some out)
     | None => mret None
     end) w =
  match env_spawn env cmd (files w) with
  | inl _ => (Returns None, w)
  | inr (returncode, stdout, fs) =>
      if (returncode =? 0) && bool_decide (stdout ≠ "")
      then match env_write_fails env fs out stdout with
           | None => (Returns (Some out), with_files w (<[out := stdout]> fs))
           | Some fs' => (Raises OSError, with_files w fs')
           end
      else (Returns None, with_files w fs)
  end.
Proof.
  intros out. unfold mbind, M_bind. rewrite run_capture_unfold.
  destruct (env_spawn env cmd (files w)) as [err|[[returncode stdout] fs]];
    [done |].
  destruct (returncode =? 0); [|done].
  destruct stdout as [|c rest]; [done |].
  cbn [truthy_str andb]. rewrite bool_decide_true by done.
  unfold write_hashfile, write_to_unified_hashfile. cbn [files with_files].
  fold out. by destruct (env_write_fails env fs out (String c rest)).
Qed.

Lemma careful_capture (env : Env) (cmd : list string) (path : Path) :
  careful env path
    (run_capture env cmd ≫= λ res,
       match truthy_str res with
       | Some data => write_hashfile env path data ≫= λ out, mret (Some out)
       | None => mret None
       end).
Proof.
  apply careful_bind; [apply quiet_careful, quiet_run_capture |]. intros res.
  destruct (truthy_str res); [|apply quiet_careful, quiet_ret].
  apply careful_bind; [apply careful_write_hashfile |].
  intros out. apply quiet_careful, quiet_ret.
Qed.

Lemma yields_capture (env : Env) (cmd : list string) (path : Path) :
  yields_hashfile env path
    (run_capture env cmd ≫= λ res,
       match truthy_str res with
       | Some data => write_hashfile env path data ≫= λ out, mret (Some out)
       | None => mret None
       end).
Proof.
  intros w out w'. rewrite capture_to_hashfile.
  destruct (env_spawn env cmd (files w)) as [err|[[returncode stdout] fs]];
    [done |].
  destruct (_ && _); [|done].
  destruct (env_write_fails env fs _ stdout); [done |]. intros [= <- <-].
  split; [done |]. simpl. rewrite lookup_insert_eq. by eexists.
Qed.

Lemma extract_with_john_tool_unfold (env : Env) (tool : string) (path : Path)
    (w : World) :
  extract_with_john_tool env tool path w =
  match truthy_str (env_which env (files w) tool) with
  | None => (Returns None, w)
  | Some exe =>
      (run_capture env [exe; path_str path] ≫= λ res,
         match truthy_str res with
         | Some data => write_hashfile env path data ≫= λ out, mret (Some out)
         | None => mret None
         end) w
  end.
Proof.
  unfold extract_with_john_tool.
  rewrite (bind_Returns (which env tool) _ w w _ eq_refl).
  by destruct (truthy_str (env_which env (files w) tool)).
Qed.

Lemma careful_extract_with_john_tool (env : Env) (tool : string) (path : Path) :
  careful env path (extract_with_john_tool env tool path).
Proof.
  intros w o w'. rewrite extract_with_john_tool_unfold.
  destruct (truthy_str (env_which env (files w) tool)) as [exe|].
  - apply careful_capture.
  - intros [= <- <-]. split; [done | by intros e [=]].
Qed.

Lemma yields_extract_with_john_tool (env : Env) (tool : string) (path : Path) :
  yields_hashfile env path (extract_with_john_tool env tool path).
Proof.
  intros w out w'. rewrite extract_with_john_tool_unfold.
  destruct (truthy_str (env_which env (files w) tool)) as [exe|]; [|done].
  apply yields_capture.
Qed.

(** [extract_with_john_tool] prints nothing and raises nothing but the
    [OSError] of a failed write of the hash file: the write is outside
    any [try].  Its result is other than [None] exactly when the tool is
    found, runs to return code 0 and prints something; what the tool
    printed is then written to the [.hash] sibling of the source, on top
    of the files as the tool left them.  When the write goes through the
    result is that path; when it fails, [OSError] leaves the function. *)
Theorem extract_with_john_tool_result (env : Env) (tool : string)
    (path : Path) (w : World) :
  let out := env_with_suffix env (path_str path) ".hash" in
  ∃ o w', extract_with_john_tool env tool path w = (o, w')
    ∧ printed w' = printed w
    ∧ (o = Returns None ∨ o = Returns (Some out) ∨ o = Raises OSError)
    ∧ (o = Returns (Some out) →
         ∃ data, data ≠ "" ∧ files w' !! out = Some data)
    ∧ (o ≠ Returns None ↔
         ∃ exe data fs,
           truthy_str (env_which env (files w) tool) = Some exe
           ∧ data ≠ ""
           ∧ env_spawn env [exe; path_str path] (files w) = inr (0, data, fs))
    ∧ (∀ exe data fs,
         truthy_str (env_which env (files w) tool) = Some exe →
         data ≠ "" →
         env_spawn env [exe; path_str path] (files w) = inr (0, data, fs) →
         match env_write_fails env fs out data with
         | None => o = Returns (Some out) ∧ files w' = <[out := data]> fs
         | Some fs' => o = Raises OSError ∧ files w' = fs'
         end).
Proof.
  intros out. rewrite extract_with_john_tool_unfold.
  destruct (truthy_str (env_which env (files w) tool)) as [exe|] eqn:Hexe.
  2: { exists (Returns None), w. split_and!; [done | done | auto | done | |].
       - split; [done | by intros (? & ? & ? & [=] & _)].
       - by intros ??? [=]. }
  rewrite capture_to_hashfile. fold out.
  destruct (env_spawn env [exe; path_str path] (files w))
    as [err|[[returncode stdout] fs]] eqn:Hspawn.
  { exists (Returns None), w. split_and!; [done | done | auto | done | |].
    - split; [done | intros (? & ? & ? & [= <-] & _ & Hs)].
      rewrite Hspawn in Hs. done.
    - intros ??? [= <-] _ Hs. rewrite Hspawn in Hs. done. }
  destruct (Z.eqb_spec returncode 0) as [->|Hrc]; cbn [andb].
  2: { eexists (Returns None), _.
       split_and!; [done | done | auto | done | |].
       - split; [done | intros (? & ? & ? & [= <-] & _ & Hs)].
         rewrite Hspawn in Hs. injection Hs as ? _ _. done.
       - intros ??? [= <-] _ Hs. rewrite Hspawn in Hs.
         injection Hs as ? _ _. done. }
  case_bool_decide as Hout.
  2: { eexists (Returns None), _.
       split_and!; [done | done | auto | done | |].
       - split; [done | intros (? & ? & ? & [= <-] & ? & Hs)].
         rewrite Hspawn in Hs. injection Hs as <- _. done.
       - intros ??? [= <-] ? Hs. rewrite Hspawn in Hs.
         injection Hs as <- _. done. }
  destruct (env_write_fails env fs out stdout) as [fs'|] eqn:Hwrite.
  - eexists (Raises OSError), _.
    split_and!; [done | done | auto | done | |].
    + split; [intros _; by exists exe, stdout, fs | done].
    + intros ??? [= <-] _ Hs. rewrite Hspawn in Hs.
      injection Hs as <- <-. by rewrite Hwrite.
  - eexists (Returns (Some out)), _.
    split_and!; [done | done | auto | | |].
    + intros _. exists stdout. split; [done |]. apply lookup_insert_eq.
    + split; [intros _; by exists exe, stdout, fs | done].
    + intros ??? [= <-] _ Hs. rewrite Hspawn in Hs.
      injection Hs as <- <-. by rewrite Hwrite.
Qed.

(** ** Captures *)

Lemma quiet_extract_pcap (env : Env) (path : Path) : quiet (extract_pcap env path).
Proof.
  apply quiet_bind; [apply quiet_which |]. intros ex1.
  apply quiet_bind.
  { destruct (truthy_str ex1); [apply quiet_ret | apply quiet_which]. }
  intros ex. destruct (truthy_str ex); [|apply quiet_ret].
  apply quiet_except; [|apply quiet_ret].
  apply tame_bind; [apply tame_run_quiet |]. intros _.
  apply quiet_tame, quiet_bind; [apply quiet_path_exists |].
  intros []; apply quiet_ret.
Qed.

Lemma extract_pcap_unfold (env : Env) (path : Path) (w : World) :
  let outname := env_with_suffix env (path_str path) ".hash" in
  extract_pcap env path w =
  match pcap_tool env (files w) with
  | None => (Returns None, w)
  | Some ex =>
      match env_spawn env [ex; "-o"; outname; path_str path] (files w) with
      | inr (_, _, fs) =>
          (Returns (if bool_decide (is_Some (fs !! outname))
                    then Some outname else None), with_files w fs)
      | inl exe_not_found =>
          (Returns (if bool_decide (is_Some (files w !! outname))
                    then Some outname else None), w)
      | inl spawn_failed => (Returns None, w)
      end
  end.
Proof.
  intros outname.
  assert (∀ ex,
    except_Exception
      (run_quiet env [ex; "-o"; outname; path_str path] false
       ≫= λ _, path_exists outname
       ≫= λ there : bool, if there then mret (Some outname) else mret None)
      (mret None) w =
    match env_spawn env [ex; "-o"; outname; path_str path] (files w) with
    | inr (_, _, fs) =>
        (Returns (if bool_decide (is_Some (fs !! outname))
                  then Some outname else None), with_files w fs)
    | inl exe_not_found =>
        (Returns (if bool_decide (is_Some (files w !! outname))
                  then Some outname else None), w)
    | inl spawn_failed => (Returns None, w)
    end) as Htail.
  { intros ex. unfold except_Exception, mbind, M_bind.
    rewrite run_quiet_unchecked.
    destruct (env_spawn env _ (files w)) as [[]|[[returncode out] fs]];
      simpl; [| done |]; by destruct (bool_decide _). }
  unfold extract_pcap, pcap_tool. fold outname.
  rewrite (bind_Returns (which env "hcxpcapngtool") _ w w
             (env_which env (files w) "hcxpcapngtool") eq_refl).
  destruct (env_which env (files w) "hcxpcapngtool") as [[|c1 r1]|];
    cbn [truthy_str].
  - rewrite (bind_Returns (which env "hcxpcaptool") _ w w
               (env_which env (files w) "hcxpcaptool") eq_refl).
    destruct (env_which env (files w) "hcxpcaptool") as [[|c2 r2]|];
      cbn [truthy_str]; [done | apply Htail | done].
  - rewrite (bind_Returns (mret (Some (String c1 r1))) _ w w _ eq_refl).
    cbn [truthy_str]. apply Htail.
  - rewrite (bind_Returns (which env "hcxpcaptool") _ w w
               (env_which env (files w) "hcxpcaptool") eq_refl).
    destruct (env_which env (files w) "hcxpcaptool") as [[|c2 r2]|];
      cbn [truthy_str]; [done | apply Htail | done].
Qed.

(** [extract_pcap] never raises and prints nothing.  Without a capture
    tool it returns [None].  With one, the return code of the tool is not
    looked at: the result is the [.hash] sibling of the source exactly
    when that path exists once the tool has run, or could not be found
    when started; so an output file that was there before counts as
    success when the tool leaves it alone. *)
Theorem extract_pcap_result (env : Env) (path : Path) (w : World) :
  let outname := env_with_suffix env (path_str path) ".hash" in
  ∃ r w', extract_pcap env path w = (Returns r, w')
    ∧ printed w' = printed w
    ∧ (r = None ∨ r = Some outname)
    ∧ (pcap_tool env (files w) = None → r = None ∧ w' = w)
    ∧ (∀ ex returncode stdout fs,
         pcap_tool env (files w) = Some ex →
         env_spawn env [ex; "-o"; outname; path_str path] (files w)
           = inr (returncode, stdout, fs) →
         w' = with_files w fs
         ∧ (r = Some outname ↔ is_Some (fs !! outname)))
    ∧ (∀ ex returncode stdout,
         pcap_tool env (files w) = Some ex →
         env_spawn env [ex; "-o"; outname; path_str path] (files w)
           = inr (returncode, stdout, files w) →
         is_Some (files w !! outname) → r = Some outname).
Proof.
  intros outname. rewrite extract_pcap_unfold. fold outname.
  destruct (pcap_tool env (files w)) as [ex|].
  - destruct (env_spawn env _ (files w)) as [[]|[[returncode out] fs]] eqn:Hspawn.
    + eexists _, _. split; [done |]. split; [done |].
      split; [case_bool_decide; auto |]. split; [done |]. split.
      * intros ex' ??? [= <-] ?. congruence.
      * intros ex' ?? [= <-] ?. congruence.
    + eexists _, _. split; [done |]. split; [done |].
      split; [auto |]. split; [done |]. split.
      * intros ex' ??? [= <-] ?. congruence.
      * intros ex' ?? [= <-] ?. congruence.
    + eexists _, _. split; [done |]. split; [done |].
      split; [case_bool_decide; auto |]. split; [done |]. split.
      * intros ex' ??? [= <-] Hspawn'. rewrite Hspawn in Hspawn'.
        injection Hspawn' as <- <- <-. split; [done |].
        case_bool_decide; [done |]. split; [done | by intros ?].
      * intros ex' ?? [= <-] Hspawn' Hthere. rewrite Hspawn in Hspawn'.
        injection Hspawn' as <- <- ->. by rewrite bool_decide_true.
  - eexists _, _. split; [done |]. split; [done |]. split; [auto |].
    split; [done |]. split; by intros.
Qed.

Lemma yields_extract_pcap (env : Env) (path : Path) :
  yields_hashfile env path (extract_pcap env path).
Proof.
  intros w out w'. rewrite extract_pcap_unfold.
  destruct (pcap_tool env (files w)) as [ex|]; [|done].
  destruct (env_spawn env _ (files w)) as [[]|[[returncode stdout] fs]];
    [| done |]; case_bool_decide; intros [= <- <-]; done.
Qed.

(** ** The wrapper around the extractor *)

Lemma ensure_pyhanko_imported (env : Env) (w : World) :
  env_import_pyhanko env (files w) = true →
  ensure_pyhanko env w = (Returns true, w).
Proof.
  intros Himport. unfold ensure_pyhanko.
  rewrite (bind_Returns (import_pyhanko env) _ w w true); [done |].
  unfold import_pyhanko. by rewrite Himport.
Qed.

(** [extract_pdf] never raises and prints nothing.  It first makes sure
    of pyhanko, which may run [pip] and so change the files; when
    pyhanko can be imported at once nothing is run.  Without pyhanko the
    result is [None].  With it, the reader is built from the files as
    they are then: when building the reader or the extraction raises,
    the result is [None] and these files stay; otherwise the
    fingerprint is written to the [.hash] sibling of the source, and the
    result is that path, every other file being left alone, or [None]
    when the write fails. *)
Theorem extract_pdf_result (env : Env) (path : Path) (w : World) :
  let out := env_with_suffix env (path_str path) ".hash" in
  ∃ pyhanko w1 r w',
    ensure_pyhanko env w = (Returns pyhanko, w1)
    ∧ run_extract_pdf env path w = (Returns r, w')
    ∧ printed w' = printed w
    ∧ (env_import_pyhanko env (files w) = true → pyhanko = true ∧ w1 = w)
    ∧ (if pyhanko then
         match env_open_reader env (path_str path) (files w1) ≫= extract with
         | Raise _ => r = None ∧ w' = w1
         | Ok txt =>
             match env_write_fails env (files w1) out txt with
             | None =>
                 r = Some out ∧ files w' = <[out := txt]> (files w1)
                 ∧ files w' !! out = Some txt
                 ∧ ∀ p, p ≠ out → files w' !! p = files w1 !! p
             | Some fs' => r = None ∧ files w' = fs'
             end
         end
       else r = None ∧ w' = w1).
Proof.
  intros out.
  destruct (quiet_ensure_pyhanko env w) as (pyhanko & w1 & Hensure & Hp1).
  exists pyhanko, w1. unfold run_extract_pdf.
  rewrite (bind_Returns _ _ _ _ _ Hensure).
  assert (env_import_pyhanko env (files w) = true → pyhanko = true ∧ w1 = w)
    as Himport.
  { intros H. rewrite (ensure_pyhanko_imported env w H) in Hensure.
    by injection Hensure as <- <-. }
  unfold extract_pdf_with, extract_pdf, write_to_unified_hashfile. fold out.
  destruct pyhanko; cbn [negb].
  2: { eexists _, _. split_and!; try done. by destruct w1. }
  destruct (env_open_reader env (path_str path) (files w1) ≫= extract)
    as [txt|e].
  2: { eexists _, _. split_and!; try done. by destruct w1. }
  destruct (env_write_fails env (files w1) out txt) as [fs'|].
  - eexists _, _. split_and!; done.
  - eexists _, _. split_and!; try done.
    + apply lookup_insert_eq.
    + intros p Hp. by apply lookup_insert_ne.
Qed.

Lemma quiet_run_extract_pdf (env : Env) (path : Path) :
  quiet (run_extract_pdf env path).
Proof.
  apply quiet_bind; [apply quiet_ensure_pyhanko |].
  intros pyhanko. apply quiet_extract_pdf_with.
Qed.

Lemma yields_run_extract_pdf (env : Env) (path : Path) :
  yields_hashfile env path (run_extract_pdf env path).
Proof.
  intros w out w' (pyhanko & w1 & _ & Hrun)%bind_inv. revert Hrun.
  unfold extract_pdf_with, extract_pdf.
  destruct (negb pyhanko); [done |].
  destruct (env_open_reader env (path_str path) (files w1) ≫= extract)
    as [txt|e]; [|done].
  unfold write_to_unified_hashfile.
  destruct (env_write_fails env (files w1) _ txt); [done |].
  intros [= <- <-].
  split; [done |]. simpl. rewrite lookup_insert_eq. by eexists.
Qed.

(** ** The 7z helper *)

Lemma local_helper_pl (env : Env) :
  endswith (local_helper env) ".pl" = true
  ∧ truthy_str (Some (local_helper env)) = Some (local_helper env).
Proof.
  split.
  - apply endswith_app. exists (env_scripts_dir env +:+ "/7z2hashcat").
    unfold local_helper. by rewrite app_assoc_str.
  - unfold local_helper. by destruct (env_scripts_dir env).
Qed.

Lemma careful_extract_7z (env : Env) (path : Path) :
  careful env path (extract_7z env path).
Proof.
  apply careful_bind; [apply quiet_careful, quiet_which |]. intros on_path.
  apply careful_bind; [apply quiet_careful, quiet_path_exists |]. intros here.
  apply careful_bind.
  { apply quiet_careful.
    destruct (_ && _); [apply quiet_download_raw | apply quiet_ret]. }
  intros _.
  apply careful_bind; [apply quiet_careful, quiet_which |]. intros on_path'.
  apply careful_bind; [apply quiet_careful, quiet_path_exists |]. intros here'.
  cbv zeta.
  match goal with
  | |- careful _ _ (match truthy_str ?h with _ => _ end) =>
      destruct (truthy_str h)
  end; [apply careful_capture | apply quiet_careful, quiet_ret].
Qed.

Lemma yields_bind {A : Type} (env : Env) (path : Path) (m : M A)
    (k : A → M (option string)) :
  (∀ a, yields_hashfile env path (k a)) → yields_hashfile env path (m ≫= k).
Proof.
  intros Hk w out w' (a & w1 & _ & Hrun)%bind_inv. by apply (Hk a w1).
Qed.

Lemma yields_None (env : Env) (path : Path) :
  yields_hashfile env path (mret None).
Proof. by intros w out w' [=]. Qed.

Lemma yields_extract_7z (env : Env) (path : Path) :
  yields_hashfile env path (extract_7z env path).
Proof.
  unfold extract_7z. do 5 (apply yields_bind; intros ?).
  match goal with
  | |- yields_hashfile _ _ (match truthy_str ?h with _ => _ end) =>
      destruct (truthy_str h)
  end; [apply yields_capture | apply yields_None].
Qed.

Lemma extract_7z_local (env : Env) (path : Path) (w : World) :
  truthy_str (env_which env (files w) "7z2hashcat.pl") = None →
  (which env "7z2hashcat.pl" ≫= λ on_path,
     path_exists (local_helper env) ≫= λ here : bool,
       match
         truthy_str
           match truthy_str on_path with
           | Some h => Some h
           | None => if here then Some (local_helper env) else None
           end
       with
       | Some helper =>
           run_capture env
             (if endswith helper ".pl"
              then ["perl"; helper; path_str path]
              else [helper; path_str path])
           ≫= λ res,
             match truthy_str res with
             | Some data =>
                 write_hashfile env path data ≫= λ out, mret (Some out)
             | None => mret None
             end
       | None => mret None
       end) w =
  if bool_decide (is_Some (files w !! local_helper env))
  then (run_capture env ["perl"; local_helper env; path_str path] ≫= λ res,
          match truthy_str res with
          | Some data => write_hashfile env path data ≫= λ out, mret (Some out)
          | None => mret None
          end) w
  else (Returns None, w).
Proof.
  intros Hwhich.
  rewrite (bind_Returns (which env "7z2hashcat.pl") _ w w _ eq_refl).
  rewrite (bind_Returns (path_exists (local_helper env)) _ w w _ eq_refl).
  rewrite Hwhich. destruct (bool_decide _); [|done].
  destruct (local_helper_pl env) as [Hpl ->]. by rewrite Hpl.
Qed.

(** The files after [download_raw] got an answer with status 200: the
    body is stored, unless the write fails; whether [chmod] fails makes
    no difference to the files. *)
Lemma download_raw_200 (env : Env) (url dest body : string) (w : World) :
  env_urlopen env url = Some (200, body) →
  ∃ ok, download_raw env url dest w =
    (Returns ok,
     with_files w
       match env_write_fails env (files w) dest body with
       | None => <[dest := body]> (files w)
       | Some fs' => fs'
       end).
Proof.
  intros Hurl. unfold download_raw. rewrite Hurl. cbn [Z.eqb negb Pos.eqb].
  unfold except_Exception, mbind, M_bind, write_bytes, chmod_owner_execute.
  destruct (env_write_fails env (files w) dest body) as [fs'|];
    [by exists false |].
  cbn [files]. destruct (env_chmod_fails env _ dest); by eexists.
Qed.

(** When the helper script is neither on the path nor in the scripts
    directory, [extract_7z] fetches it.  If the download fails or the
    status is not 200, nothing is run and the result is [None], the
    state as before.  If the status is 200, the body is written to the
    local helper, and what [download_raw] returns is not looked at: the
    helper is run through [perl] on the source when its path exists
    afterwards, as it does when the write went through, and otherwise
    the result is [None].  What the script prints, when it ends with
    return code 0 and prints something, goes to the [.hash] sibling of
    the source; the result is that path, or [OSError] is raised when
    this second write fails. *)
Theorem extract_7z_fetches_helper (env : Env) (path : Path) (w : World) :
  (∀ fs, truthy_str (env_which env fs "7z2hashcat.pl") = None) →
  files w !! local_helper env = None →
  let out := env_with_suffix env (path_str path) ".hash" in
  (env_urlopen env SEVENZ2HASHCAT_RAW = None →
     extract_7z env path w = (Returns None, w))
  ∧ (∀ status body,
       env_urlopen env SEVENZ2HASHCAT_RAW = Some (status, body) →
       status ≠ 200 →
       extract_7z env path w = (Returns None, w))
  ∧ (∀ body,
       env_urlopen env SEVENZ2HASHCAT_RAW = Some (200, body) →
       let fetched :=
         match env_write_fails env (files w) (local_helper env) body with
         | None => <[local_helper env := body]> (files w)
         | Some fs' => fs'
         end in
       (env_write_fails env (files w) (local_helper env) body = None →
        fetched !! local_helper env = Some body)
       ∧ extract_7z env path w =
         if bool_decide (is_Some (fetched !! local_helper env)) then
           match env_spawn env ["perl"; local_helper env; path_str path] fetched with
           | inl _ => (Returns None, with_files w fetched)
           | inr (returncode, stdout, fs) =>
               if (returncode =? 0) && bool_decide (stdout ≠ "")
               then match env_write_fails env fs out stdout with
                    | None =>
                        (Returns (Some out), with_files w (<[out := stdout]> fs))
                    | Some fs' => (Raises OSError, with_files w fs')
                    end
               else (Returns None, with_files w fs)
           end
         else (Returns None, with_files w fetched)).
Proof.
  intros Hwhich Hlocal out.
  assert (∀ (ok : bool) (w1 : World),
    download_raw env SEVENZ2HASHCAT_RAW (local_helper env) w = (Returns ok, w1) →
    extract_7z env path w =
    if bool_decide (is_Some (files w1 !! local_helper env))
    then (run_capture env ["perl"; local_helper env; path_str path] ≫= λ res,
            match truthy_str res with
            | Some data => write_hashfile env path data ≫= λ out, mret (Some out)
            | None => mret None
            end) w1
    else (Returns None, w1)) as Hstep.
  { intros ok w1 Hdown. unfold extract_7z. fold (local_helper env).
    rewrite (bind_Returns (which env "7z2hashcat.pl") _ w w _ eq_refl).
    rewrite (bind_Returns (path_exists (local_helper env)) _ w w _ eq_refl).
    rewrite Hwhich, Hlocal.
    rewrite !(bool_decide_false (is_Some None)) by by intros [? [=]].
    cbn [negb andb]. rewrite (bind_Returns _ _ _ _ _ Hdown).
    by apply extract_7z_local. }
  split; [|split].
  - intros Hurl. rewrite (Hstep false w).
    + by rewrite Hlocal, bool_decide_false by by intros [? [=]].
    + unfold download_raw. by rewrite Hurl.
  - intros status body Hurl Hstatus. rewrite (Hstep false w).
    + by rewrite Hlocal, bool_decide_false by by intros [? [=]].
    + unfold download_raw. rewrite Hurl.
      apply Z.eqb_neq in Hstatus. by rewrite Hstatus.
  - intros body Hurl fetched. split.
    { intros Hwrite. unfold fetched. rewrite Hwrite. apply lookup_insert_eq. }
    destruct (download_raw_200 env _ (local_helper env) body w Hurl)
      as [ok Hdown].
    rewrite (Hstep ok _ Hdown). fold fetched. cbn [files with_files].
    destruct (bool_decide (is_Some (fetched !! local_helper env))); [|done].
    rewrite capture_to_hashfile. cbn [files with_files]. fold out.
    destruct (env_spawn env _ fetched) as [err|[[returncode stdout] fs]];
      [done |].
    destruct (_ && _); [|done].
    by destruct (env_write_fails env fs out stdout).
Qed.

(** ** Dispatch *)

Lemma careful_or_else (env : Env) (path : Path) (a b : M (option string)) :
  careful env path a → careful env path b → careful env path (or_else a b).
Proof.
  intros Ha Hb. apply careful_bind; [done |].
  intros [out|]; [apply quiet_careful, quiet_ret | done].
Qed.

Lemma yields_or_else (env : Env) (path : Path) (a b : M (option string)) :
  yields_hashfile env path a → yields_hashfile env path b →
  yields_hashfile env path (or_else a b).
Proof.
  intros Ha Hb w out w' (r & w1 & Hrun & Hrest)%bind_inv.
  destruct r as [out'|]; [|by apply (Hb w1)].
  injection Hrest as <- <-. by apply (Ha w).
Qed.

Lemma careful_extract_hash (env : Env) (path : Path) :
  careful env path (extract_hash env path).
Proof.
  apply careful_bind; [apply quiet_careful, quiet_detect_type |]. intros t.
  repeat (match goal with
          | |- careful _ _ (if ?b then _ else _) => destruct b
          end);
    auto using quiet_careful, quiet_run_extract_pdf, careful_or_else,
      careful_extract_with_john_tool, careful_extract_7z, quiet_extract_pcap,
      quiet_ret.
Qed.

Lemma yields_extract_hash (env : Env) (path : Path) :
  yields_hashfile env path (extract_hash env path).
Proof.
  apply yields_bind. intros t.
  repeat (match goal with
          | |- yields_hashfile _ _ (if ?b then _ else _) => destruct b
          end);
    auto using yields_run_extract_pdf, yields_or_else,
      yields_extract_with_john_tool, yields_extract_7z, yields_extract_pcap,
      yields_None.
Qed.

(** [extract_hash] prints nothing, whatever the tools do, and raises
    nothing but [OSError], and that only when a write of the [.hash]
    sibling of the source fails: the writes of the branches that run a
    john tool or the 7z helper are outside any [try].  For a source
    detected as [pdf], [pcap] or [unknown] it never raises.  Whenever it
    returns a path, the path is the [.hash] sibling of the source and
    that file exists. *)
Theorem extract_hash_safe (env : Env) (path : Path) (w : World) :
  ∃ o w', extract_hash env path w = (o, w')
    ∧ printed w' = printed w
    ∧ (∀ e, o = Raises e → e = OSError ∧ hashfile_write_fails env path)
    ∧ (∀ out, o = Returns (Some out) →
         out = env_with_suffix env (path_str path) ".hash"
         ∧ is_Some (files w' !! out))
    ∧ (∀ t w1, detect_type env path w = (Returns t, w1) →
         t ∈ ["pdf"; "pcap"; "unknown"] → ∃ r, o = Returns r).
Proof.
  destruct (extract_hash env path w) as [o w'] eqn:Hrun.
  exists o, w'. split; [done |].
  destruct (careful_extract_hash env path w o w' Hrun) as [Hp He].
  split; [done |]. split; [done |]. split.
  - intros out ->. by apply (yields_extract_hash env path w).
  - intros t w1 Hdetect Ht. revert Hrun. unfold extract_hash.
    rewrite (bind_Returns _ _ _ _ _ Hdetect).
    assert (t = "pdf" ∨ t = "pcap" ∨ t = "unknown") as [->|[->| ->]]
      by (revert Ht; rewrite !elem_of_cons, elem_of_nil; tauto);
      cbn [String.eqb Ascii.eqb Bool.eqb].
    + destruct (quiet_run_extract_pdf env path w1) as (r & w2 & -> & _).
      intros [= <- _]. by eexists.
    + destruct (quiet_extract_pcap env path w1) as (r & w2 & -> & _).
      intros [= <- _]. by eexists.
    + intros [= <- _]. by eexists.
Qed.

(** ** Main *)

Lemma with_printed_app (w : World) (l1 l2 : list string) :
  with_printed (with_printed w l1) l2 = with_printed w (l1 ++ l2).
Proof. unfold with_printed. simpl. by rewrite app_assoc. Qed.

Lemma print_run (line : string) (w : World) :
  print line w = (Returns tt, with_printed w [line]).
Proof. done. Qed.

Lemma print_success_run (out : string) (w : World) :
  print_success out w =
  (Raises (SystemExit 0), with_printed w [banner; "Extraction successful."; out]).
Proof.
  unfold print_success.
  do 3 (erewrite bind_Returns; [|apply print_run]).
  unfold sys_exit. by rewrite !with_printed_app.
Qed.

Lemma print_failure_run (c : ascii) (rest : string) (w : World) :
  print_failure (Some (String c rest)) w =
  (Raises (SystemExit 2),
   with_printed w [banner; "Extraction failed."; String c rest]).
Proof.
  unfold print_failure. cbn [truthy_str].
  do 3 (erewrite bind_Returns; [|apply print_run]).
  unfold sys_exit. by rewrite !with_printed_app.
Qed.

Lemma auto_install_not_root (env : Env) (w : World) :
  is_root env = false →
  auto_install env w =
  (Raises (SystemExit 1),
   with_printed w ["Error: must run as root to install dependencies."]).
Proof. intros Hroot. unfold auto_install. by rewrite Hroot. Qed.

Lemma auto_install_root (env : Env) (w : World) :
  is_root env = true →
  ∃ w1, except_Exception (auto_install env) (mret tt) w = (Returns tt, w1)
    ∧ printed w1 = printed w.
Proof.
  intros Hroot.
  assert (quiet (except_Exception (auto_install env) (mret tt))) as Hq.
  { apply quiet_except; [|apply quiet_ret]. unfold auto_install.
    rewrite Hroot. simpl.
    apply tame_bind; [apply tame_run_quiet |]. intros _.
    apply tame_bind; [apply tame_run_quiet |]. intros _.
    apply quiet_tame, quiet_ret. }
  destruct (Hq w) as ([] & w1 & Hrun & Hp). by exists w1.
Qed.

Lemma usage_two (arg0 arg1 : string) :
  usage_requested [arg0; arg1] = bool_decide (arg1 ∈ ["-h"; "--help"]).
Proof. done. Qed.

(** What [main] does once the arguments name a file that exists: the
    guarded [auto_install], then the extraction and the report. *)
Lemma main_run (env : Env) (arg0 arg1 : string) (w : World) :
  arg1 ∉ ["-h"; "--help"] →
  is_Some (files w !! path_str (env_resolve env arg1)) →
  main env [arg0; arg1] w =
  (except_Exception (auto_install env) (mret tt) ≫= λ _,
   extract_hash env (env_resolve env arg1) ≫= λ out,
   match out with
   | Some out => print_success out
   | None =>
       detect_type env (env_resolve env arg1) ≫= λ t,
       if String.eqb t "pdf" then
         print_failure (Some "PDF extraction failed: pyhanko missing or unsupported PDF protection.")
       else if String.eqb t "pcap" then
         print_failure (Some "PCAP extraction failed: hcxpcapngtool missing or no WPA handshake present.")
       else
         print_failure (Some "Extractor missing or file format unsupported.")
   end) w.
Proof.
  intros Hhelp Hthere. unfold main.
  rewrite usage_two, bool_decide_false by done.
  rewrite (bind_Returns (argv_get [arg0; arg1] 1) _ w w arg1 eq_refl).
  rewrite (bind_Returns (path_exists _) _ w w true)
    by (unfold path_exists; by rewrite bool_decide_true).
  cbn [negb]. by rewrite (bind_Returns (mret tt) _ w w tt eq_refl).
Qed.

(** Asked for help, or called with a number of arguments other than
    one, [main] prints the banner and the usage line and exits with
    status 0 without touching a file; with an empty argument vector the
    usage line cannot be built and [IndexError] escapes after the
    banner. *)
Theorem main_usage (env : Env) (argv : list string) (w : World) :
  usage_requested argv = true →
  match argv with
  | arg0 :: _ =>
      main env argv w =
      (Raises (SystemExit 0),
       with_printed w [banner; "Usage: " +:+ arg0 +:+ " <protected_file_path>"])
  | [] => main env argv w = (Raises IndexError, with_printed w [banner])
  end.
Proof.
  intros Husage. unfold main. rewrite Husage.
  erewrite bind_Returns; [|apply print_run].
  destruct argv as [|arg0 rest]; [done |].
  rewrite (bind_Returns (argv_get (arg0 :: rest) 0) _ _ _ arg0 eq_refl).
  erewrite bind_Returns; [|apply print_run].
  unfold sys_exit. by rewrite with_printed_app.
Qed.

Lemma main_usage_witness :
  main bare_env ["hashbaker.py"; "--help"] empty_world =
  (Raises (SystemExit 0),
   with_printed empty_world
     [banner; "Usage: hashbaker.py <protected_file_path>"]).
Proof. apply (main_usage bare_env ["hashbaker.py"; "--help"] empty_world eq_refl). Defined.

(** When the file named on the command line does not exist, [main]
    prints the banner, the failure line and the reason and exits with
    status 2, before any privilege check or installation, without
    touching a file. *)
Theorem main_file_not_found (env : Env) (arg0 arg1 : string) (w : World) :
  arg1 ∉ ["-h"; "--help"] →
  files w !! path_str (env_resolve env arg1) = None →
  main env [arg0; arg1] w =
  (Raises (SystemExit 2),
   with_printed w [banner; "Extraction failed."; "Error: file not found."]).
Proof.
  intros Hhelp Hgone. unfold main.
  rewrite usage_two, bool_decide_false by done.
  rewrite (bind_Returns (argv_get [arg0; arg1] 1) _ w w arg1 eq_refl).
  rewrite (bind_Returns (path_exists _) _ w w false)
    by (unfold path_exists; rewrite Hgone;
        by rewrite bool_decide_false by by intros [? [=]]).
  cbn [negb]. apply bind_Raises. apply print_failure_run.
Qed.

Lemma not_help (arg : string) :
  String.eqb arg "-h" = false → String.eqb arg "--help" = false →
  arg ∉ ["-h"; "--help"].
Proof.
  intros H1%String.eqb_neq H2%String.eqb_neq.
  rewrite !not_elem_of_cons. split; [done |]. split; [done |].
  apply not_elem_of_nil.
Qed.

Lemma main_file_not_found_witness :
  main full_env ["hashbaker.py"; "/tmp/a.zip"] empty_world =
  (Raises (SystemExit 2),
   with_printed empty_world
     [banner; "Extraction failed."; "Error: file not found."]).
Proof.
  apply (main_file_not_found full_env "hashbaker.py" "/tmp/a.zip" empty_world).
  - apply not_help; reflexivity.
  - reflexivity.
Defined.

(** Run by a user who is not root on a file that exists, [main] prints
    the line of [auto_install] and exits with status 1: [sys.exit] is
    not caught by [except Exception], so no extraction is attempted, no
    tool is run and no file is written. *)
Theorem main_not_root (env : Env) (arg0 arg1 : string) (w : World) :
  arg1 ∉ ["-h"; "--help"] →
  is_Some (files w !! path_str (env_resolve env arg1)) →
  env_geteuid env ≠ 0 →
  main env [arg0; arg1] w =
  (Raises (SystemExit 1),
   with_printed w ["Error: must run as root to install dependencies."])
  ∧ exit_status (main env [arg0; arg1] w).1 = 1
  ∧ files (main env [arg0; arg1] w).2 = files w.
Proof.
  intros Hhelp Hthere Heuid.
  assert (main env [arg0; arg1] w =
    (Raises (SystemExit 1),
     with_printed w ["Error: must run as root to install dependencies."]))
    as Hmain.
  { rewrite main_run by done. apply bind_Raises.
    unfold except_Exception. rewrite auto_install_not_root; [done |].
    unfold is_root. by apply Z.eqb_neq. }
  by rewrite Hmain.
Qed.

Lemma main_not_root_witness :
  main bare_env ["hashbaker.py"; "/tmp/a.zip"] world_with_zip =
  (Raises (SystemExit 1),
   with_printed world_with_zip
     ["Error: must run as root to install dependencies."]).
Proof.
  apply (main_not_root bare_env "hashbaker.py" "/tmp/a.zip" world_with_zip).
  - apply not_help; reflexivity.
  - by eexists.
  - discriminate.
Defined.

(** Run by root on a file that exists, [main] completes the guarded
    installation whatever [apt-get] does, printing nothing, and then
    reports what [extract_hash] returns: for a path it prints the banner,
    the success line and the path and exits with status 0; for [None] it
    prints the banner, the failure line and one of three reasons, chosen
    by a second type detection, and exits with status 2.  When
    [extract_hash] raises, which it does only when a write of the hash
    file fails, the [OSError] leaves [main]: nothing is printed and the
    process ends with status 1. *)
Theorem main_as_root (env : Env) (arg0 arg1 : string) (w : World) :
  arg1 ∉ ["-h"; "--help"] →
  is_Some (files w !! path_str (env_resolve env arg1)) →
  env_geteuid env = 0 →
  let src := env_resolve env arg1 in
  ∃ w1 o w2,
    except_Exception (auto_install env) (mret tt) w = (Returns tt, w1)
    ∧ printed w1 = printed w
    ∧ extract_hash env src w1 = (o, w2)
    ∧ match o with
      | Returns (Some out) =>
          main env [arg0; arg1] w =
          (Raises (SystemExit 0),
           with_printed w2 [banner; "Extraction successful."; out])
          ∧ out = env_with_suffix env (path_str src) ".hash"
          ∧ is_Some (files w2 !! out)
      | Returns None =>
          ∃ t w3 reason,
            detect_type env src w2 = (Returns t, w3)
            ∧ main env [arg0; arg1] w =
              (Raises (SystemExit 2),
               with_printed w3 [banner; "Extraction failed."; reason])
            ∧ reason =
                (if String.eqb t "pdf" then
                   "PDF extraction failed: pyhanko missing or unsupported PDF protection."
                 else if String.eqb t "pcap" then
                   "PCAP extraction failed: hcxpcapngtool missing or no WPA handshake present."
                 else "Extractor missing or file format unsupported.")
      | Raises e =>
          e = OSError
          ∧ hashfile_write_fails env src
          ∧ main env [arg0; arg1] w = (Raises OSError, w2)
          ∧ printed w2 = printed w
          ∧ exit_status (main env [arg0; arg1] w).1 = 1
      end.
Proof.
  intros Hhelp Hthere Heuid src.
  destruct (auto_install_root env w) as (w1 & Hinstall & Hp1);
    [unfold is_root; by rewrite Heuid |].
  destruct (extract_hash env src w1) as [o w2] eqn:Hhash.
  destruct (careful_extract_hash env src w1 o w2 Hhash) as [Hp2 He].
  exists w1, o, w2. split; [done |]. split; [done |]. split; [done |].
  rewrite main_run by done. fold src.
  rewrite (bind_Returns _ _ _ _ _ Hinstall).
  destruct o as [[out|]|e].
  - rewrite (bind_Returns _ _ _ _ _ Hhash).
    split; [apply print_success_run |].
    by apply (yields_extract_hash env src w1).
  - rewrite (bind_Returns _ _ _ _ _ Hhash).
    destruct (quiet_detect_type env src w2) as (t & w3 & Hdetect & Hp3).
    eexists t, w3, _. split; [done |]. refine (conj _ eq_refl).
    rewrite (bind_Returns _ _ _ _ _ Hdetect).
    destruct (String.eqb t "pdf"); [by rewrite print_failure_run |].
    destruct (String.eqb t "pcap"); by rewrite print_failure_run.
  - destruct (He e eq_refl) as [-> Hfails].
    rewrite (bind_Raises _ _ _ _ _ Hhash).
    split; [done |]. split; [done |]. split; [done |].
    split; [congruence | done].
Qed.

Lemma main_as_root_witness :
  (∃ w2,
     main full_env ["hashbaker.py"; "/tmp/a.zip"] world_with_zip =
     (Raises (SystemExit 0),
      with_printed w2 [banner; "Extraction successful."; "/tmp/a.hash"])
     ∧ files w2 !! "/tmp/a.hash" = Some "hash")
  ∧ main read_only_env ["hashbaker.py"; "/tmp/a.zip"] world_with_zip =
    (Raises OSError, world_with_zip).
Proof.
  split.
  - destruct (main_as_root full_env "hashbaker.py" "/tmp/a.zip" world_with_zip)
      as (w1 & o & w2 & Hinstall & _ & Hhash & Hreport).
    + apply not_help; reflexivity.
    + by eexists.
    + reflexivity.
    + vm_compute in Hinstall. injection Hinstall as <-.
      vm_compute in Hhash. injection Hhash as <- <-.
      destruct Hreport as (Hmain & _ & _). eexists. split; [exact Hmain |].
      reflexivity.
  - destruct (main_as_root read_only_env "hashbaker.py" "/tmp/a.zip"
                world_with_zip)
      as (w1 & o & w2 & Hinstall & _ & Hhash & Hreport).
    + apply not_help; reflexivity.
    + by eexists.
    + reflexivity.
    + vm_compute in Hinstall. injection Hinstall as <-.
      vm_compute in Hhash. injection Hhash as <- <-.
      destruct Hreport as (_ & _ & Hmain & _). exact Hmain.
Defined.

(** The exit status of the tool is always 0, 1 or 2.  [main] never
    returns: what leaves it is [sys.exit] with code 0, 1 or 2, or
    [IndexError] for an empty argument vector, or the [OSError] of a
    failed write of the hash file; the last two end the process with
    status 1. *)
Theorem main_exit_status (env : Env) (argv : list string) (w : World) :
  exit_status (main env argv w).1 ∈ [0; 1; 2]
  ∧ ∃ e w', main env argv w = (Raises e, w')
      ∧ (e = SystemExit 0 ∨ e = SystemExit 1 ∨ e = SystemExit 2
         ∨ (e = IndexError ∧ argv = [])
         ∨ (e = OSError
            ∧ ∃ arg0 arg1, argv = [arg0; arg1]
                ∧ hashfile_write_fails env (env_resolve env arg1))).
Proof.
  assert (∃ e w', main env argv w = (Raises e, w')
      ∧ (e = SystemExit 0 ∨ e = SystemExit 1 ∨ e = SystemExit 2
         ∨ (e = IndexError ∧ argv = [])
         ∨ (e = OSError
            ∧ ∃ arg0 arg1, argv = [arg0; arg1]
                ∧ hashfile_write_fails env (env_resolve env arg1))))
    as (e & w' & Hmain & He).
  { destruct (usage_requested argv) eqn:Husage.
    - unfold main. rewrite Husage.
      erewrite bind_Returns; [|apply print_run].
      destruct argv as [|arg0 rest].
      + eexists _, _. split; [reflexivity |]. auto 10.
      + rewrite (bind_Returns (argv_get (arg0 :: rest) 0) _ _ _ arg0 eq_refl).
        erewrite bind_Returns; [|apply print_run].
        eexists _, _. split; [reflexivity |]. auto.
    - destruct argv as [|arg0 [|arg1 [|arg2 rest]]]; try done.
      rewrite usage_two in Husage. apply bool_decide_eq_false in Husage.
      destruct (files w !! path_str (env_resolve env arg1)) as [content|] eqn:Hfile.
      + assert (is_Some (files w !! path_str (env_resolve env arg1))) as Hthere
          by by eexists.
        rewrite main_run by done.
        destruct (decide (env_geteuid env = 0)) as [Hroot|Hroot].
        * destruct (auto_install_root env w) as (w1 & Hinstall & _);
            [unfold is_root; by rewrite Hroot |].
          rewrite (bind_Returns _ _ _ _ _ Hinstall).
          destruct (extract_hash env (env_resolve env arg1) w1)
            as [[r|e] w2] eqn:Hhash.
          -- rewrite (bind_Returns _ _ _ _ _ Hhash).
             destruct r as [out|];
               [rewrite print_success_run; eexists _, _; split; [reflexivity | auto] |].
             destruct (quiet_detect_type env (env_resolve env arg1) w2)
               as (t & w3 & Hdetect & _).
             rewrite (bind_Returns _ _ _ _ _ Hdetect).
             destruct (String.eqb t "pdf");
               [rewrite print_failure_run; eexists _, _; split; [reflexivity | auto] |].
             destruct (String.eqb t "pcap"); rewrite print_failure_run;
               eexists _, _; (split; [reflexivity | auto]).
          -- rewrite (bind_Raises _ _ _ _ _ Hhash).
             destruct (careful_extract_hash _ _ _ _ _ Hhash) as [_ He].
             destruct (He e eq_refl) as [-> Hfails].
             eexists _, _. split; [reflexivity |]. do 4 right.
             split; [done |]. by exists arg0, arg1.
        * rewrite (bind_Raises _ _ w
                     (with_printed w
                        ["Error: must run as root to install dependencies."])
                     (SystemExit 1)).
          -- eexists _, _. split; [reflexivity | auto].
          -- unfold except_Exception. rewrite auto_install_not_root; [done |].
             unfold is_root. by apply Z.eqb_neq.
      + unfold main. rewrite usage_two, bool_decide_false by done.
        rewrite (bind_Returns (argv_get [arg0; arg1] 1) _ w w arg1 eq_refl).
        rewrite (bind_Returns (path_exists _) _ w w false)
          by (unfold path_exists; rewrite Hfile;
              by rewrite bool_decide_false by by intros [? [=]]).
        cbn [negb].
        rewrite (bind_Raises _ _ w _ _ (print_failure_run _ _ w)).
        eexists _, _. split; [reflexivity | auto]. }
  split; [|by exists e, w'].
  rewrite Hmain. cbn [fst].
  destruct He as [->|[->|[->|[[-> _]|[-> _]]]]]; cbn [exit_status];
    rewrite !elem_of_cons; auto.
Qed.

(** * Reading a fingerprint back *)

Lemma unhex_byte (b : byte) :
  unhex_digit (hexdigit (Byte.to_N b / 16)) = Some (Byte.to_N b / 16)%N
  ∧ unhex_digit (hexdigit (Byte.to_N b mod 16)) = Some (Byte.to_N b mod 16)%N
  ∧ Byte.of_N (16 * (Byte.to_N b / 16) + Byte.to_N b mod 16) = Some b.
Proof. destruct b; vm_compute; done. Qed.

Lemma unhex_hex (data : bytes) : unhex (hex data) = Some data.
Proof.
  induction data as [|b data IH]; [done |].
  cbn [hex unhex]. destruct (unhex_byte b) as (-> & -> & Hb).
  cbn. rewrite Hb. cbn. by rewrite IH.
Qed.

Lemma hex_inj (d1 d2 : bytes) : hex d1 = hex d2 → d1 = d2.
Proof.
  intros H. apply (f_equal unhex) in H. rewrite !unhex_hex in H. congruence.
Qed.

Lemma split_on_cons (sep : ascii) (s : string) :
  ∃ w ws, split_on sep s = w :: ws.
Proof.
  destruct s as [|c s]; [by eexists _, _ |]. cbn [split_on].
  destruct (Ascii.eqb c sep); [by eexists _, _ |].
  destruct (split_on sep s); by eexists _, _.
Qed.

Lemma join_split_on (sep : ascii) (s : string) :
  join (String sep "") (split_on sep s) = s.
Proof.
  unfold join. induction s as [|c s IH]; [done |]. cbn [split_on].
  destruct (split_on_cons sep s) as (w & ws & Hs). rewrite Hs in *.
  destruct (Ascii.eqb_spec c sep) as [->|Hne].
  - change (String sep (String.concat (String sep "") (w :: ws)) = String sep s).
    by rewrite IH.
  - destruct ws as [|w' ws].
    + simpl in *. by rewrite IH.
    + change (String c (String.concat (String sep "") (w :: w' :: ws))
              = String c s).
      by rewrite IH.
Qed.

Lemma split_on_inj (sep : ascii) (s1 s2 : string) :
  split_on sep s1 = split_on sep s2 → s1 = s2.
Proof.
  intros H. rewrite <- (join_split_on sep s1), <- (join_split_on sep s2).
  by rewrite H.
Qed.

Lemma field_pair_emitted (m : nat) (o : option bytes) :
  field_pair m o = flat_map pair_of (option_list (take m <$> truthy o)).
Proof. unfold field_pair. by destruct (truthy o). Qed.

Lemma password_items_emitted (h : SecurityHandler) (revision : PdfObject) :
  password_items h revision = flat_map pair_of (emitted_data h revision).
Proof.
  rewrite password_items_fields. unfold emitted_data, keys.
  rewrite get_key_length_spec. cbn [omap list_omap getattr String.eqb Ascii.eqb Bool.eqb].
  rewrite !field_pair_emitted. cbv zeta.
  destruct (truthy (udata h)), (truthy (odata h)),
    (truthy (oeseed h)), (truthy (ueseed h)); cbn; done.
Qed.

Lemma flat_map_pair_of_inj (ds1 ds2 : list bytes) :
  flat_map pair_of ds1 = flat_map pair_of ds2 → ds1 = ds2.
Proof.
  revert ds2. induction ds1 as [|d1 ds1 IH]; intros [|d2 ds2]; try done.
  simpl. intros [= _ Hhex Hrest]. f_equal; [by apply hex_inj | by apply IH].
Qed.

Lemma get_passwords_inj (self1 self2 : PdfHashExtractor) :
  get_passwords self1 = get_passwords self2 →
  emitted_data (security_handler (self_pdf self1)) (self_revision self1)
  = emitted_data (security_handler (self_pdf self2)) (self_revision self2).
Proof.
  unfold get_passwords. intros Heq.
  apply join_star_inj in Heq; [|apply password_items_plain ..].
  rewrite !password_items_emitted in Heq. by apply flat_map_pair_of_inj.
Qed.

(** The password part of a fingerprint tells the byte strings that were
    emitted, cut to the limit and in order, and nothing else: two
    extractors have the same password part exactly when they emit the
    same byte strings, whichever attributes these came from. *)
Theorem get_passwords_decodes (self1 self2 : PdfHashExtractor) :
  get_passwords self1 = get_passwords self2
  ↔ emitted_data (security_handler (self_pdf self1)) (self_revision self1)
    = emitted_data (security_handler (self_pdf self2)) (self_revision self2).
Proof.
  split; [apply get_passwords_inj |].
  intros Heq. unfold get_passwords. by rewrite !password_items_emitted, Heq.
Qed.

Lemma str_inj (o1 o2 : option PdfObject) :
  int_or_absent o1 → int_or_absent o2 → str o1 = str o2 → o1 = o2.
Proof.
  assert (∀ n, str_int n ≠ "None") as Hnone.
  { intros n Heq. pose proof (str_int_chars n) as Hchars.
    rewrite Heq in Hchars. done. }
  destruct o1 as [[n1|s1|neg1 c1 k1]|], o2 as [[n2|s2|neg2 c2 k2]|];
    try done; simpl.
  - intros _ _ Heq. by apply str_int_inj in Heq as ->.
  - intros _ _ Heq. by apply Hnone in Heq.
  - intros _ _ Heq. symmetry in Heq. by apply Hnone in Heq.
Qed.

Lemma str_bool_inj (b1 b2 : bool) : str_bool b1 = str_bool b2 → b1 = b2.
Proof. by destruct b1, b2. Qed.

(** A fingerprint over integer entries can be read back: two extractors
    whose entries are integers produce the same fingerprint exactly
    when they agree on the algorithm version, the revision, the key
    length, the permissions, the metadata flag, the first document
    identifier and the byte strings emitted. *)
Theorem parse_decodes (self1 self2 : PdfHashExtractor) :
  integer_entries self1 → integer_entries self2 →
  parse self1 = parse self2
  ↔ self_algorithm self1 = self_algorithm self2
    ∧ self_revision self1 = self_revision self2
    ∧ self_length self1 = self_length self2
    ∧ self_permissions self1 = self_permissions self2
    ∧ encrypt_metadata (security_handler (self_pdf self1))
      = encrypt_metadata (security_handler (self_pdf self2))
    ∧ fst (document_id (self_pdf self1)) = fst (document_id (self_pdf self2))
    ∧ emitted_data (security_handler (self_pdf self1)) (self_revision self1)
      = emitted_data (security_handler (self_pdf self2)) (self_revision self2).
Proof.
  intros (HV1 & HR1 & HL1 & HP1) (HV2 & HR2 & HL2 & HP2). split.
  - intros Heq. apply (f_equal (split_on "*")) in Heq.
    rewrite !split_parse in Heq by done.
    injection Heq as HV HR HL HP HM Hlen Hid Hpw.
    apply (inj (String.append _)), str_inj in HV; [|done..].
    apply (str_inj (Some (self_revision self1)) (Some (self_revision self2)))
      in HR; [|done..].
    apply (str_inj (Some (self_length self1)) (Some (self_length self2)))
      in HL; [|done..].
    apply (str_inj (Some (self_permissions self1)) (Some (self_permissions self2)))
      in HP; [|done..].
    apply str_bool_inj in HM. apply hex_inj in Hid.
    apply split_on_inj, get_passwords_inj in Hpw.
    split_and!; congruence.
  - intros (HV & HR & HL & HP & HM & Hid & Hdata).
    rewrite !parse_prefix. unfold fingerprint_prefix, get_passwords.
    rewrite !password_items_emitted, Hdata. by rewrite HV, HR, HL, HP, HM, Hid.
Qed.

Lemma parse_decodes_witness :
  ∃ self1 self2,
    init reader_r6 = Ok self1 ∧ init reader_r6_variant = Ok self2
    ∧ parse self1 = parse self2.
Proof.
  eexists _, _. split; [reflexivity |]. split; [reflexivity |].
  apply parse_decodes.
  - repeat split.
  - repeat split.
  - repeat split.
Defined.

Lemma extract_7z_fetches_helper_witness :
  extract_7z fetch_env (sample_resolve "/tmp/a.7z") empty_world =
  (Returns (Some "/tmp/a.hash"),
   with_files empty_world
     (<[ "/tmp/a.hash" := "$7z$0$19$0$salt" ]>
        (<[ "/opt/hashbaker/helper_scripts/7z2hashcat.pl" := "#!/usr/bin/env perl" ]>
           ∅))).
Proof.
  destruct (extract_7z_fetches_helper fetch_env (sample_resolve "/tmp/a.7z")
              empty_world (λ _, eq_refl) eq_refl) as (_ & _ & Hfetch).
  destruct (Hfetch "#!/usr/bin/env perl" eq_refl) as [_ Hrun].
  exact Hrun.
Defined.
